(** * gpio_control_node: a four-servo drive controller polled from a file

    A shallow embedding of [src/gpio_control_node.py].  The program acquires
    four [gpiozero.Servo] devices at import time, then loops: read a control
    word from a text file, map it to four speeds, assign them to the servos
    (assigning [None] when a speed compares equal to [0.0]), print a status
    line, sleep.  On leaving the loop it detaches and closes every servo.

    Python floats are IEEE-754 binary64 numbers, embedded as Rocq's primitive
    [float]; [==] on floats is [PrimFloat.eqb], unary minus is [PrimFloat.opp]
    and [*] is [PrimFloat.mul].  Python ints are [Z].  A Python [str] is its
    list of code points. *)

From Stdlib Require Import ZArith NArith List String Ascii Bool Lia Floats.
Import ListNotations.

Set Warnings "-inexact-float".
Local Open Scope string_scope.
Local Open Scope list_scope.

(* ================================================================== *)
(** ** Python runtime: exceptions, outcomes, strings *)

(** The exceptions the program can meet.  [KeyboardInterrupt] and
    [SystemExit] derive from [BaseException] only; everything else the
    program can see derives from [Exception] and is named by its class. *)
Inductive exn : Type :=
| KeyboardInterrupt
| SystemExit (code : Z)
| Exception (name : string).

(** What [except Exception] catches. *)
Definition is_Exception (e : exn) : bool :=
  match e with Exception _ => true | _ => false end.

(** What [except KeyboardInterrupt] catches. *)
Definition is_KeyboardInterrupt (e : exn) : bool :=
  match e with KeyboardInterrupt => true | _ => false end.

(** How a piece of code ends: it returns, it raises, or (for [while True])
    the finite trace of events it was run on ended while it was still
    looping. *)
Inductive outcome (A : Type) : Type :=
| Return (a : A)
| Raise (e : exn)
| Running.
Arguments Return {A} a.
Arguments Raise {A} e.
Arguments Running {A}.

(** A [str] as the list of its code points. *)
Definition pystr := list N.

Definition pystr_of_string (s : string) : pystr :=
  map N_of_ascii (list_ascii_of_string s).

(** [str.isspace] of one character, as [str.strip()] uses it: the Unicode
    white-space code points. *)
Definition isspace (c : N) : bool :=
  ((9 <=? c) && (c <=? 13) || (28 <=? c) && (c <=? 32)
   || (c =? 133) || (c =? 160) || (c =? 5760)
   || (8192 <=? c) && (c <=? 8202)
   || (c =? 8232) || (c =? 8233) || (c =? 8239) || (c =? 8287)
   || (c =? 12288))%N.

Fixpoint lstrip (s : pystr) : pystr :=
  match s with
  | c :: rest => if isspace c then lstrip rest else s
  | [] => []
  end.

Definition rstrip (s : pystr) : pystr := rev (lstrip (rev s)).

(** [str.strip()] with no argument. *)
Definition strip (s : pystr) : pystr := rstrip (lstrip s).

Section UnicodeTables.

(** The Unicode character database beyond ASCII is a parameter:
    [uni_isdigit c] says whether [str.isdigit] accepts the code point
    [c >= 128] (Numeric_Type Digit or Decimal), [uni_decimal c] is the
    decimal value [int()] reads it as, if any.  [int_max_str_digits] is
    [sys.get_int_max_str_digits()]: [int()] raises [ValueError] on more
    digits than that, unless it is 0. *)
Variable uni_isdigit : N -> bool.
Variable uni_decimal : N -> option N.
Variable int_max_str_digits : nat.

Definition isdigit_char (c : N) : bool :=
  if (c <? 128)%N then ((48 <=? c) && (c <=? 57))%N else uni_isdigit c.

(** [str.isdigit()]: every character is a digit and there is at least
    one. *)
Definition isdigit (s : pystr) : bool :=
  match s with
  | [] => false
  | _ => forallb isdigit_char s
  end.

Definition decimal_of_char (c : N) : option N :=
  if (c <? 128)%N
  then (if ((48 <=? c) && (c <=? 57))%N then Some (c - 48)%N else None)
  else uni_decimal c.

(** Base-10 accumulation, most significant digit first. *)
Fixpoint int_digits (acc : Z) (s : pystr) : option Z :=
  match s with
  | [] => Some acc
  | c :: rest =>
      match decimal_of_char c with
      | Some d => int_digits (10 * acc + Z.of_N d) rest
      | None => None
      end
  end.

(** [int(s)] on the strings the program passes to it: no sign, no
    underscore, no blank (the caller has stripped the text and checked
    [isdigit]).  [ValueError] on the empty string, on a character that has
    no decimal value, and past the digit limit. *)
Definition int (s : pystr) : outcome Z :=
  match s with
  | [] => Raise (Exception "ValueError")
  | _ =>
      if (negb (int_max_str_digits =? 0)%nat
          && (int_max_str_digits <? List.length s)%nat)
      then Raise (Exception "ValueError")
      else match int_digits 0 s with
           | Some n => Return n
           | None => Raise (Exception "ValueError")
           end
  end.

End UnicodeTables.

(* ================================================================== *)
(** ** Devices, the world, and the state-and-exception monad *)

(** A [gpiozero.Servo] as the program uses it: the pin it was opened on,
    the [value] last assigned to it ([None]: no PWM signal is sent; the
    program never reads the attribute back), and whether [close()] has
    released it. *)
Record Servo : Type := mkServo {
  pin : Z;
  value : option float;
  closed : bool
}.

(** The spec's vocabulary for a channel. *)
Inductive ChannelState : Type :=
| Detached
| Active (v : float).

Definition channel_state (m : Servo) : ChannelState :=
  match value m with
  | None => Detached
  | Some v => Active v
  end.

(** What the program does to the terminal: [os.system('clear')], [print]
    and [sys.stderr.write].  The status line's clock and the exact wording
    of error messages are left out; terminal output itself never fails. *)
Inductive Output : Type :=
| ClearScreen
| Print (text : string)
| PrintInitError (on_pin : Z)
| PrintEraseLine
| PrintStatus (control_word : Z) (action : string)
| StderrFileNotFound
| StderrReadError (e : exn).

(** The mutable world: the servo objects created so far (an object is
    referred to by its position, its handle) and the terminal. *)
Record World : Type := mkWorld {
  heap : list Servo;
  console : list Output
}.

Definition M (A : Type) : Type := World -> outcome A * World.

Definition ret {A} (a : A) : M A := fun w => (Return a, w).

Definition raise {A} (e : exn) : M A := fun w => (Raise e, w).

(** The end of the observed trace inside a loop. *)
Definition still_running {A} : M A := fun w => (Running, w).

Definition bind {A B} (c : M A) (k : A -> M B) : M B :=
  fun w =>
    match c w with
    | (Return a, w') => k a w'
    | (Raise e, w') => (Raise e, w')
    | (Running, w') => (Running, w')
    end.

Declare Scope py_scope.
Delimit Scope py_scope with py.
Notation "x <- c ;; k" := (bind c (fun x => k))
  (at level 61, c at next level, right associativity) : py_scope.
Notation "c ;; k" := (bind c (fun _ => k))
  (at level 61, right associativity) : py_scope.
Local Open Scope py_scope.

(** Lifting a pure outcome (a built-in that touches no object). *)
Definition lift {A} (r : outcome A) : M A := fun w => (r, w).

(** [try: body  except <catches> as e: handler e]. *)
Definition try_except {A} (body : M A) (catches : exn -> bool)
    (handler : exn -> M A) : M A :=
  fun w =>
    match body w with
    | (Raise e, w') => if catches e then handler e w' else (Raise e, w')
    | r => r
    end.

(** [try: body  finally: final].  The final block runs when the body
    returns or raises; an exception of the final block replaces the body's
    outcome. *)
Definition try_finally {A} (body : M A) (final : M unit) : M A :=
  fun w =>
    match body w with
    | (Running, w') => (Running, w')
    | (r, w') =>
        match final w' with
        | (Return _, w'') => (r, w'')
        | (Raise e, w'') => (Raise e, w'')
        | (Running, w'') => (Running, w'')
        end
    end.

Definition print (o : Output) : M unit :=
  fun w => (Return tt, mkWorld (heap w) (console w ++ [o])).

(** Creating an object: it is appended to the heap and its handle
    returned. *)
Definition new_servo (m : Servo) : M nat :=
  fun w => (Return (List.length (heap w)), mkWorld (heap w ++ [m]) (console w)).

Fixpoint update_at (h : nat) (f : Servo -> Servo) (l : list Servo)
    : option (list Servo) :=
  match l, h with
  | [], _ => None
  | m :: rest, O => Some (f m :: rest)
  | m :: rest, S h' =>
      match update_at h' f rest with
      | Some rest' => Some (m :: rest')
      | None => None
      end
  end.

(** Mutating the object behind a handle.  A handle the heap does not hold
    cannot arise in the program (handles come from [new_servo]); the model
    is made total by raising there. *)
Definition modify (h : nat) (f : Servo -> Servo) : M unit :=
  fun w =>
    match update_at h f (heap w) with
    | Some heap' => (Return tt, mkWorld heap' (console w))
    | None => (Raise (Exception "ReferenceError"), w)
    end.

Definition deref (h : nat) : M Servo :=
  fun w =>
    match nth_error (heap w) h with
    | Some m => (Return m, w)
    | None => (Raise (Exception "ReferenceError"), w)
    end.

(** The attribute [value] once [v] has been assigned. *)
Definition set_value (v : option float) (m : Servo) : Servo :=
  mkServo (pin m) v (closed m).

Definition mark_closed (m : Servo) : Servo :=
  mkServo (pin m) (value m) true.

(** The test of the [value] setter of [gpiozero.Servo] on a number,
    [-1 <= value <= 1]: it fails for a number out of range, for an
    infinity and for a NaN. *)
Definition setter_accepts (v : float) : bool :=
  ((- 1.0 <=? v) && (v <=? 1.0))%float.

(** [motor.value = v] through the setter of [gpiozero.Servo]: [None]
    detaches, a number in [-1, 1] is taken, anything else raises
    [OutputDeviceBadValue] and leaves the servo as it was. *)
Definition assign_value (motor : nat) (v : option float) : M unit :=
  match v with
  | None => modify motor (set_value None)
  | Some x =>
      if setter_accepts x
      then modify motor (set_value (Some x))
      else raise (Exception "OutputDeviceBadValue")
  end.

(** A point where an asynchronous exception may arrive: [Some e] raises
    [e] there. *)
Definition signal (s : option exn) : M unit :=
  match s with
  | Some e => raise e
  | None => ret tt
  end.

(* ================================================================== *)
(** ** The program *)

(** *** Configuration (lines 8-24) *)

Definition FRONT_LEFT_PIN : Z := 27.
Definition FRONT_RIGHT_PIN : Z := 17.
Definition REAR_LEFT_PIN : Z := 22.
Definition REAR_RIGHT_PIN : Z := 23.

Definition MAX_SPEED : float := 0.5%float.
Definition TURN_SPEED : float := 0.4%float.
Definition FORWARD : float := MAX_SPEED.
Definition BACKWARD : float := (- MAX_SPEED)%float.

(** The text of line 147; it starts with a newline. *)
Definition interrupted_line : string :=
  String "010"%char "[INFO] Interrupted by user. Stopping motors...".

(** *** The command source and the clock, as the loop sees them *)

(** What one look at the control file gives: [os.path.exists] says no;
    [open] or [read] raises; or [read] returns the decoded text. *)
Inductive Source : Type :=
| Missing
| Unreadable (e : exn)
| Text (content : pystr).

(** One turn of the loop as the environment decides it: the file, and
    whether [time.sleep] returns ([None]) or is cut short by an exception
    (Ctrl-C raises [KeyboardInterrupt] there). *)
Record Event : Type := Cycle {
  source : Source;
  wake : option exn
}.

Section Program.

Variable uni_isdigit : N -> bool.
Variable uni_decimal : N -> option N.
Variable int_max_str_digits : nat.

(** The hardware: [acquire p] is the exception [Servo(p, ...)] raises, if
    any; [release p] is the exception [close()] raises on the device of
    pin [p], if any. *)
Variable acquire : Z -> option exn.
Variable release : Z -> option exn.

(** Exceptions that arrive from outside while the final block runs (a
    second Ctrl-C): [interrupt p] while line 151 runs for the servo of pin
    [p], [farewell] while line 153 runs.  One arriving while [close()]
    runs is told by [release]. *)
Variable interrupt : Z -> option exn.
Variable farewell : option exn.

(** [Servo(pin, initial_value=None)]. *)
Definition Servo_new (p : Z) : M nat :=
  match acquire p with
  | Some e => raise e
  | None => new_servo (mkServo p None false)
  end.

Definition sys_exit {A} (code : Z) : M A := raise (SystemExit code).

(** Lines 27-38. *)
Definition init_motor (p : Z) : M nat :=
  try_except (Servo_new p) is_Exception
    (fun _ => print (PrintInitError p);; sys_exit 1).

(** Lines 41-45: the module-level initialisation; the result is
    [all_motors]. *)
Definition init_all_motors : M (list nat) :=
  motor_fl <- init_motor FRONT_LEFT_PIN;;
  motor_fr <- init_motor FRONT_RIGHT_PIN;;
  motor_rl <- init_motor REAR_LEFT_PIN;;
  motor_rr <- init_motor REAR_RIGHT_PIN;;
  ret [motor_fl; motor_fr; motor_rl; motor_rr].

(** [vals[i]]. *)
Definition index (vals : list float) (i : nat) : M float :=
  match nth_error vals i with
  | Some v => ret v
  | None => raise (Exception "IndexError")
  end.

(** Lines 55-61: [for i, motor in enumerate(all_motors)]. *)
Fixpoint set_speeds_loop (vals : list float) (i : nat) (motors : list nat)
    : M unit :=
  match motors with
  | [] => ret tt
  | motor :: rest =>
      v <- index vals i;;
      (if (v =? 0.0)%float
       then assign_value motor None
       else assign_value motor (Some v));;
      set_speeds_loop vals (S i) rest
  end.

(** Lines 48-61. *)
Definition set_speeds (all_motors : list nat) (fl_val fr_val rl_val rr_val : float)
    : M unit :=
  let vals := [fl_val; fr_val; rl_val; rr_val] in
  set_speeds_loop vals 0 all_motors.

(** Lines 70-101: the [if]/[elif] chain of [steer_vehicle], giving
    [(fl, fr, rl, rr)] and [action]. *)
Definition steer_table (control_word : Z)
    : (float * float * float * float) * string :=
  (if control_word =? 1 then
     ((FORWARD * 1.45, - FORWARD, FORWARD * 1.45, - FORWARD)%float,
      "FORWARD")
   else if control_word =? 2 then
     ((BACKWARD, - BACKWARD * 1.3, BACKWARD, - BACKWARD * 1.3)%float,
      "BACKWART")
   else if control_word =? 3 then
     ((FORWARD * 1.5, - BACKWARD * 1.5, BACKWARD * 0.5, - FORWARD * 0.5)%float,
      "LEFT")
   else if control_word =? 4 then
     ((BACKWARD * 0.5, - FORWARD * 0.5, FORWARD * 1.5, - BACKWARD * 1.5)%float,
      "RIGHT")
   else if control_word =? 5 then
     ((BACKWARD * 1.5, - FORWARD * 1.5, BACKWARD * 1.5, - FORWARD * 1.5)%float,
      "TURN-LEFT")
   else if control_word =? 6 then
     ((FORWARD * 1.5, - BACKWARD * 1.5, FORWARD * 1.5, - BACKWARD * 1.5)%float,
      "TURN-RIGHT")
   else if control_word =? 7 then
     ((0.0, - FORWARD * 0.5, FORWARD * 1.5, 0.0)%float,
      "DIAGONAL-LEFT")
   else if control_word =? 8 then
     ((FORWARD * 1.5, - 0.0, 0.0, - FORWARD * 0.5)%float,
      "DIAGONAL-RIGHT")
   else
     ((0.0, 0.0, 0.0, 0.0)%float,
      "STOP (Detached)"))%Z.

(** Lines 64-104. *)
Definition steer_vehicle (all_motors : list nat) (control_word : Z) : M string :=
  let '((fl, fr, rl, rr), action) := steer_table control_word in
  set_speeds all_motors fl fr rl rr;;
  ret action.

(** Lines 119-131: the control word of one cycle.  It is 0 unless the
    [try] block reaches [control_word = int(content)]. *)
Definition read_control_word (src : Source) : M Z :=
  try_except
    (match src with
     | Text raw =>
         let content := strip raw in
         if isdigit uni_isdigit content
         then lift (int uni_decimal int_max_str_digits content)
         else ret 0%Z
     | Unreadable e => raise e
     | Missing => print StderrFileNotFound;; ret 0%Z
     end)
    is_Exception
    (fun e => print (StderrReadError e);; ret 0%Z).

(** Lines 137-138. *)
Fixpoint erase_lines (line_count : nat) : M unit :=
  match line_count with
  | O => ret tt
  | S n => print PrintEraseLine;; erase_lines n
  end.

(** [time.sleep(LOOP_DELAY_SECONDS)]. *)
Definition sleep (w : option exn) : M unit :=
  match w with
  | Some e => raise e
  | None => ret tt
  end.

(** Lines 118-144: [while True], run on a finite trace of events. *)
Fixpoint loop (all_motors : list nat) (line_count : nat) (trace : list Event)
    : M unit :=
  match trace with
  | [] => still_running
  | ev :: rest =>
      control_word <- read_control_word (source ev);;
      action <- steer_vehicle all_motors control_word;;
      erase_lines line_count;;
      print (PrintStatus control_word action);;
      sleep (wake ev);;
      loop all_motors 1 rest
  end.

(** [motor.close()]. *)
Definition close (motor : nat) : M unit :=
  m <- deref motor;;
  match release (pin m) with
  | Some e => raise e
  | None => modify motor mark_closed
  end.

(** Lines 150-152.  [deref] only finds the pin that tells the hardware
    apart; [signal] is where a further exception may arrive while line 151
    runs. *)
Fixpoint cleanup_loop (motors : list nat) : M unit :=
  match motors with
  | [] => ret tt
  | motor :: rest =>
      m <- deref motor;;
      signal (interrupt (pin m));;
      assign_value motor None;;
      close motor;;
      cleanup_loop rest
  end.

(** Lines 107-153.  [signal farewell] is where a further exception may
    arrive while line 153 runs. *)
Definition main (all_motors : list nat) (trace : list Event) : M unit :=
  print ClearScreen;;
  print (Print "--- ROS 2 Jazzy GPIO Control Node (gpio_control_node.py) ---");;
  print (Print "File Path: /home/pi/node_red_output/control_data.json");;
  print (Print "Mode: 4-Motor PWM with Signal Detach for Neutral Safety");;
  try_finally
    (try_except (loop all_motors 0 trace) is_KeyboardInterrupt
       (fun _ => print (Print interrupted_line)))
    (cleanup_loop all_motors;;
     signal farewell;;
     print (Print "[INFO] Cleanup complete. Script finished.")).

(** Importing the module, then calling [main]. *)
Definition program (trace : list Event) : M unit :=
  all_motors <- init_all_motors;;
  main all_motors trace.

End Program.

(** The world before the module is imported. *)
Definition initial_world : World := mkWorld [] [].

(* ================================================================== *)
(** ** The spec's DriveMapper table (section 4.1 of the spec) *)

Definition DriveVector : Type := (float * float * float * float)%type.

(** Following the spec's table, row by row, with its base magnitudes
    FORWARD = 0.5 and BACKWARD = -0.5. *)
Definition DriveMapper_rows : list (Z * (DriveVector * string)) :=
  let F := 0.5%float in
  let B := (- 0.5)%float in
  [ (1%Z, ((F * 1.45, - F, F * 1.45, - F)%float, "FORWARD"));
    (2%Z, ((B, - B * 1.3, B, - B * 1.3)%float, "BACKWARD"));
    (3%Z, ((F * 1.5, - B * 1.5, B * 0.5, - F * 0.5)%float, "LEFT"));
    (4%Z, ((B * 0.5, - F * 0.5, F * 1.5, - B * 1.5)%float, "RIGHT"));
    (5%Z, ((B * 1.5, - F * 1.5, B * 1.5, - F * 1.5)%float, "TURN-LEFT"));
    (6%Z, ((F * 1.5, - B * 1.5, F * 1.5, - B * 1.5)%float, "TURN-RIGHT"));
    (7%Z, ((0.0, - F * 0.5, F * 1.5, 0.0)%float, "DIAGONAL-LEFT"));
    (8%Z, ((F * 1.5, - 0.0, 0.0, - F * 0.5)%float, "DIAGONAL-RIGHT")) ].

(** The spec's last row: every other code, 0 included. *)
Definition DriveMapper_other : DriveVector * string :=
  ((0.0, 0.0, 0.0, 0.0)%float, "STOP").

Fixpoint lookup_row (code : Z) (rows : list (Z * (DriveVector * string)))
    : option (DriveVector * string) :=
  match rows with
  | [] => None
  | (k, row) :: rest => if (code =? k)%Z then Some row else lookup_row code rest
  end.

(** The spec's [DriveMapper.map]. *)
Definition DriveMapper_map (code : Z) : DriveVector * string :=
  match lookup_row code DriveMapper_rows with
  | Some row => row
  | None => DriveMapper_other
  end.

(** What one turn of the loop of [set_speeds] does to a motor when the
    setter takes the value: the spec's [apply]. *)
Definition apply_speed (v : float) (m : Servo) : Servo :=
  if (v =? 0.0)%float then set_value None m else set_value (Some v) m.

(** The components of a drive vector, in channel order. *)
Definition components (v : DriveVector) : list float :=
  let '(fl, fr, rl, rr) := v in [fl; fr; rl; rr].

(** [-1.0 <= x <= 1.0], with Python's float comparisons. *)
Definition in_unit_range (x : float) : bool :=
  ((- 1.0 <=? x) && (x <=? 1.0))%float.

(** The handles [init_all_motors] returns when every servo is acquired. *)
Definition four_handles : list nat := [0; 1; 2; 3]%nat.

(** A servo as [Servo(p, initial_value=None)] creates it. *)
Definition fresh_servo (p : Z) : Servo := mkServo p None false.

(** What one turn of the cleanup loop does to a motor when [close()]
    succeeds. *)
Definition detach_and_close (m : Servo) : Servo :=
  mark_closed (set_value None m).

(** The status lines among the terminal output, oldest first. *)
Fixpoint statuses (out : list Output) : list (Z * string) :=
  match out with
  | [] => []
  | PrintStatus cw action :: rest => (cw, action) :: statuses rest
  | _ :: rest => statuses rest
  end.

Definition is_Running {A} (r : outcome A) : bool :=
  match r with Running => true | _ => false end.

(** Hardware on which nothing fails, and hardware with one faulty pin. *)
Definition no_fault : Z -> option exn := fun _ => None.

Definition fault_on (p : Z) (e : exn) : Z -> option exn :=
  fun q => if (q =? p)%Z then Some e else None.

(** Unicode tables that know no digit beyond ASCII (enough for running the
    program on ASCII files). *)
Definition ascii_isdigit : N -> bool := fun _ => false.
Definition ascii_decimal : N -> option N := fun _ => None.

(** The front-right component of a drive vector. *)
Definition front_right (v : DriveVector) : float :=
  let '(_, fr, _, _) := v in fr.

(** The smallest positive binary64 number (a subnormal). *)
Definition tiny : float := 0x1p-1074%float.

(** The four servos of a heap after [set_speeds] with the vector [v]. *)
Definition drive (v : DriveVector) (ms : list Servo) : list Servo :=
  map (fun vm => apply_speed (fst vm) (snd vm)) (combine (components v) ms).

Section ReadStep.

Variable uni_isdigit : N -> bool.
Variable uni_decimal : N -> option N.
Variable int_max_str_digits : nat.

(** The read step's outcome and what it writes to the terminal depend on
    the source only; both are read off the code, run on the empty world. *)
Definition read_result (src : Source) : outcome Z :=
  fst (read_control_word uni_isdigit uni_decimal int_max_str_digits src
         initial_world).

Definition read_errors (src : Source) : list Output :=
  console
    (snd (read_control_word uni_isdigit uni_decimal int_max_str_digits src
            initial_world)).

(** The spec's ReadError: the file is absent, reading it raises an
    [Exception], its stripped text is not all digits, or [int()] refuses
    it. *)
Definition read_fails (src : Source) : bool :=
  match src with
  | Missing => true
  | Unreadable e => is_Exception e
  | Text raw =>
      negb (isdigit uni_isdigit (strip raw))
      || match int uni_decimal int_max_str_digits (strip raw) with
         | Return _ => false
         | _ => true
         end
  end.

End ReadStep.

(** The exception with which an event ends the loop, if it does: a
    [BaseException] out of the read, or whatever cuts the sleep short. *)
Definition loop_exit (ev : Event) : option exn :=
  match source ev with
  | Unreadable e => if is_Exception e then wake ev else Some e
  | _ => wake ev
  end.

(** What [main] prints before entering the loop (lines 109-113). *)
Definition banner : list Output :=
  [ ClearScreen;
    Print "--- ROS 2 Jazzy GPIO Control Node (gpio_control_node.py) ---";
    Print "File Path: /home/pi/node_red_output/control_data.json";
    Print "Mode: 4-Motor PWM with Signal Detach for Neutral Safety" ].

(** The pins in the order the module opens them (lines 41-44). *)
Definition motor_pins : list Z :=
  [FRONT_LEFT_PIN; FRONT_RIGHT_PIN; REAR_LEFT_PIN; REAR_RIGHT_PIN].

(** Whether a servo is sent a signal. *)
Definition is_active (m : Servo) : bool :=
  match value m with
  | Some _ => true
  | None => false
  end.

(** The erase sequences among the terminal output. *)
Fixpoint erasures (out : list Output) : nat :=
  match out with
  | [] => O
  | PrintEraseLine :: rest => S (erasures rest)
  | _ :: rest => erasures rest
  end.

(** The nine outcomes of the [if]/[elif] chain of [steer_vehicle], in the
    order of the source. *)
Definition steer_rows : list ((float * float * float * float) * string) :=
  map steer_table [1; 2; 3; 4; 5; 6; 7; 8; 0]%Z.

(** A servo that has been detached and closed. *)
Definition closed_servo (p : Z) : Servo := mkServo p None true.

(** The decimal numeral of a natural number, most significant digit first,
    as code points ([str(n)] in Python); [fuel] bounds the number of
    digits. *)
Fixpoint decimal_digits (fuel : nat) (n : N) : pystr :=
  match fuel with
  | O => []
  | S fuel' =>
      if (n <? 10)%N then [(48 + n)%N]
      else decimal_digits fuel' (n / 10)%N ++ [(48 + n mod 10)%N]
  end.

Definition decimal (n : N) : pystr :=
  decimal_digits (S (N.to_nat (N.log2 n))) n.

(** The control word of a cycle whose read step returns (0 stands in when
    the read step raises). *)
Definition cycle_word (uni_isdigit : N -> bool) (uni_decimal : N -> option N)
    (int_max_str_digits : nat) (ev : Event) : Z :=
  match read_result uni_isdigit uni_decimal int_max_str_digits (source ev) with
  | Return cw => cw
  | _ => 0%Z
  end.

(** The plain [print] lines among the terminal output, oldest first. *)
Fixpoint prints (out : list Output) : list string :=
  match out with
  | [] => []
  | Print text :: rest => text :: prints rest
  | _ :: rest => prints rest
  end.

(** A value [set_speeds] hands on without the setter raising: it compares
    equal to 0.0 (then [None] is assigned) or the setter accepts it. *)
Definition speed_ok (v : float) : bool :=
  (v =? 0.0)%float || setter_accepts v.

(** What one cycle that completes writes to the terminal, in order: the
    error line of the read step if any, [line_count] erase sequences, the
    status line. *)
Definition cycle_lines (uni_isdigit : N -> bool) (uni_decimal : N -> option N)
    (int_max_str_digits : nat) (line_count : nat) (ev : Event) : list Output :=
  read_errors uni_isdigit uni_decimal int_max_str_digits (source ev)
  ++ repeat PrintEraseLine line_count
  ++ [PrintStatus (cycle_word uni_isdigit uni_decimal int_max_str_digits ev)
        (snd (steer_table
                (cycle_word uni_isdigit uni_decimal int_max_str_digits ev)))].

(** The first exception the cleanup of the servo on pin [p] meets, if any:
    one arriving at line 151, else the one [close()] raises. *)
Definition shutdown_fault (release interrupt : Z -> option exn) (p : Z)
    : option exn :=
  match interrupt p with
  | Some e => Some e
  | None => release p
  end.

(* ================================================================== *)
(** ** Basic facts *)

Ltac unfold_set_speeds :=
  unfold set_speeds, four_handles; cbn [set_speeds_loop];
  unfold index, assign_value, modify, ret, raise, bind;
  cbn [nth_error update_at heap console].

Ltac speed_step v H :=
  unfold speed_ok in H;
  destruct (PrimFloat.eqb v 0%float);
  [ | cbn [orb] in H; rewrite H ];
  cbn [nth_error update_at heap console].

Lemma set_speeds_four (fl fr rl rr : float) (m0 m1 m2 m3 : Servo)
    (c : list Output) :
  speed_ok fl = true -> speed_ok fr = true ->
  speed_ok rl = true -> speed_ok rr = true ->
  set_speeds four_handles fl fr rl rr (mkWorld [m0; m1; m2; m3] c)
  = (Return tt,
     mkWorld [apply_speed fl m0; apply_speed fr m1;
              apply_speed rl m2; apply_speed rr m3] c).
Proof.
  intros Hfl Hfr Hrl Hrr. unfold apply_speed. unfold_set_speeds.
  speed_step fl Hfl; speed_step fr Hfr; speed_step rl Hrl;
    speed_step rr Hrr; reflexivity.
Qed.

Lemma steer_table_speed_ok (cw : Z) :
  forallb speed_ok (components (fst (steer_table cw))) = true.
Proof.
  unfold steer_table.
  repeat (destruct (Z.eqb cw _); [vm_compute; reflexivity | ]).
  vm_compute; reflexivity.
Qed.

Lemma steer_table_is_DriveMapper_vector (cw : Z) :
  fst (steer_table cw) = fst (DriveMapper_map cw).
Proof.
  unfold steer_table, DriveMapper_map, DriveMapper_rows.
  cbn [lookup_row].
  repeat (destruct (Z.eqb cw _); [vm_compute; reflexivity | ]).
  reflexivity.
Qed.

Lemma steer_vehicle_four (cw : Z) (m0 m1 m2 m3 : Servo) (c : list Output) :
  steer_vehicle four_handles cw (mkWorld [m0; m1; m2; m3] c)
  = (Return (snd (steer_table cw)),
     mkWorld (let '(fl, fr, rl, rr) := fst (steer_table cw) in
              [apply_speed fl m0; apply_speed fr m1;
               apply_speed rl m2; apply_speed rr m3]) c).
Proof.
  unfold steer_vehicle.
  pose proof (steer_table_speed_ok cw) as Hok.
  destruct (steer_table cw) as [[[[fl fr] rl] rr] action].
  cbn [fst components forallb] in Hok.
  apply andb_prop in Hok. destruct Hok as [Hfl Hok].
  apply andb_prop in Hok. destruct Hok as [Hfr Hok].
  apply andb_prop in Hok. destruct Hok as [Hrl Hok].
  apply andb_prop in Hok. destruct Hok as [Hrr _].
  unfold bind. rewrite set_speeds_four by assumption. reflexivity.
Qed.

Lemma apply_speed_idempotent (v : float) (m : Servo) :
  apply_speed v (apply_speed v m) = apply_speed v m.
Proof.
  unfold apply_speed. destruct (PrimFloat.eqb v _); reflexivity.
Qed.

Lemma channel_state_apply_speed (v : float) (m : Servo) :
  channel_state (apply_speed v m)
  = if (v =? 0.0)%float then Detached else Active v.
Proof.
  unfold apply_speed. destruct (PrimFloat.eqb v _); reflexivity.
Qed.

(* ================================================================== *)
(** ** The drive table *)

(** C1: for every integer command code, the vector [steer_vehicle] computes
    and hands to [set_speeds] is, bit for bit, the row of the spec's table:
    the eight rows for codes 1 to 8 (code 1 is (0.725, -0.5, 0.725, -0.5)),
    and four zeros for every other integer, 0 and the negative ones
    included. *)
Theorem steer_vehicle_vector_exact :
  (forall cw : Z, fst (steer_table cw) = fst (DriveMapper_map cw)) /\
  map (fun cw => fst (steer_table cw)) [1; 2; 3; 4; 5; 6; 7; 8]%Z
  = [ (0.725, - 0.5, 0.725, - 0.5); (- 0.5, 0.65, - 0.5, 0.65);
      (0.75, 0.75, - 0.25, - 0.25); (- 0.25, - 0.25, 0.75, 0.75);
      (- 0.75, - 0.75, - 0.75, - 0.75); (0.75, 0.75, 0.75, 0.75);
      (0.0, - 0.25, 0.75, 0.0); (0.75, - 0.0, 0.0, - 0.25) ]%float /\
  (forall cw : Z, (cw < 1 \/ 8 < cw)%Z ->
     fst (steer_table cw) = (0.0, 0.0, 0.0, 0.0)%float) /\
  (forall (cw : Z) (m0 m1 m2 m3 : Servo) (c : list Output),
     steer_vehicle four_handles cw (mkWorld [m0; m1; m2; m3] c)
     = (Return (snd (steer_table cw)),
        mkWorld (let '(fl, fr, rl, rr) := fst (DriveMapper_map cw) in
                 [apply_speed fl m0; apply_speed fr m1;
                  apply_speed rl m2; apply_speed rr m3]) c)).
Proof.
  split; [exact steer_table_is_DriveMapper_vector | ].
  split; [vm_compute; reflexivity | ].
  split.
  - intros cw Hout. unfold steer_table.
    repeat match goal with
           | |- context [Z.eqb cw ?k] =>
               replace (Z.eqb cw k) with false by (symmetry; apply Z.eqb_neq; lia)
           end.
    reflexivity.
  - intros. rewrite <- steer_table_is_DriveMapper_vector.
    apply steer_vehicle_four.
Qed.

Lemma steer_vehicle_vector_exact_witness :
  fst (steer_table 99) = (0.0, 0.0, 0.0, 0.0)%float
  /\ fst (steer_table (-3)) = (0.0, 0.0, 0.0, 0.0)%float
  /\ fst (steer_table 0) = (0.0, 0.0, 0.0, 0.0)%float.
Proof.
  destruct steer_vehicle_vector_exact as [_ [_ [Hout _]]].
  split; [apply Hout; right; lia | ].
  split; apply Hout; left; lia.
Defined.

(** C6 as the spec states it fails on the code: the label of code 0 is
    "STOP (Detached)", not "STOP", and the label of code 2 is spelled
    "BACKWART". *)
Lemma steer_label_differs_from_spec :
  snd (steer_table 0) = "STOP (Detached)"
  /\ snd (steer_table 0) <> snd (DriveMapper_map 0)
  /\ snd (DriveMapper_map 0) = "STOP"
  /\ snd (steer_table 2) = "BACKWART"
  /\ snd (steer_table 2) <> snd (DriveMapper_map 2)
  /\ snd (DriveMapper_map 2) = "BACKWARD".
Proof.
  repeat split; try reflexivity; vm_compute; discriminate.
Qed.

(** C6, amended: for every integer command code other than 2,
    [steer_vehicle] returns the spec's label when the code is one of
    1, 3, 4, 5, 6, 7, 8 ("FORWARD", "LEFT", "RIGHT", "TURN-LEFT",
    "TURN-RIGHT", "DIAGONAL-LEFT", "DIAGONAL-RIGHT") and the label
    "STOP (Detached)" for 0 and every other integer. *)
Theorem steer_vehicle_label (cw : Z) (m0 m1 m2 m3 : Servo) (c : list Output) :
  cw <> 2%Z ->
  fst (steer_vehicle four_handles cw (mkWorld [m0; m1; m2; m3] c))
  = Return (if ((1 <=? cw) && (cw <=? 8))%Z
            then snd (DriveMapper_map cw)
            else "STOP (Detached)")
  /\ map (fun k => snd (DriveMapper_map k)) [1; 3; 4; 5; 6; 7; 8]%Z
     = ["FORWARD"; "LEFT"; "RIGHT"; "TURN-LEFT"; "TURN-RIGHT";
        "DIAGONAL-LEFT"; "DIAGONAL-RIGHT"].
Proof.
  intros Hcw. split; [ | reflexivity].
  rewrite steer_vehicle_four. cbn [fst]. f_equal.
  unfold steer_table, DriveMapper_map, DriveMapper_rows.
  cbn [lookup_row].
  destruct (Z.eqb_spec cw 1) as [-> | H1]; [reflexivity | ].
  destruct (Z.eqb_spec cw 2) as [-> | H2]; [congruence | ].
  destruct (Z.eqb_spec cw 3) as [-> | H3]; [reflexivity | ].
  destruct (Z.eqb_spec cw 4) as [-> | H4]; [reflexivity | ].
  destruct (Z.eqb_spec cw 5) as [-> | H5]; [reflexivity | ].
  destruct (Z.eqb_spec cw 6) as [-> | H6]; [reflexivity | ].
  destruct (Z.eqb_spec cw 7) as [-> | H7]; [reflexivity | ].
  destruct (Z.eqb_spec cw 8) as [-> | H8]; [reflexivity | ].
  replace ((1 <=? cw)%Z && (cw <=? 8)%Z) with false; [reflexivity | ].
  symmetry. apply andb_false_iff.
  destruct (Z.leb_spec 1 cw); [right; apply Z.leb_gt; lia | left; reflexivity].
Qed.

Lemma steer_vehicle_label_witness :
  fst (steer_vehicle four_handles 0
         (mkWorld [fresh_servo 27; fresh_servo 17;
                   fresh_servo 22; fresh_servo 23] []))
  = Return "STOP (Detached)"
  /\ fst (steer_vehicle four_handles 7
            (mkWorld [fresh_servo 27; fresh_servo 17;
                      fresh_servo 22; fresh_servo 23] []))
     = Return "DIAGONAL-LEFT".
Proof.
  split.
  - apply (steer_vehicle_label 0); discriminate.
  - apply (steer_vehicle_label 7); discriminate.
Defined.

(** C8: for every integer command code each of the four components of the
    drive vector lies in [-1.0, 1.0]; the multipliers 1.45, 1.3 and 1.5 on
    the base 0.5 give 0.725, 0.65 and 0.75, no magnitude exceeds 0.75, and
    0.75 is reached (front-left of code 3). *)
Theorem steer_table_within_unit_range :
  (forall cw : Z,
     forallb in_unit_range (components (fst (steer_table cw))) = true
     /\ forallb (fun x => (abs x <=? 0.75)%float)
          (components (fst (steer_table cw))) = true)
  /\ hd 0%float (components (fst (steer_table 3))) = 0.75%float
  /\ (FORWARD * 1.45, - BACKWARD * 1.3, FORWARD * 1.5)%float
     = (0.725, 0.65, 0.75)%float.
Proof.
  split; [ | split; vm_compute; reflexivity].
  intros cw. unfold steer_table.
  repeat (destruct (Z.eqb cw _); [split; vm_compute; reflexivity | ]).
  split; vm_compute; reflexivity.
Qed.

(** C10: for command code 8 the front-right component is negative zero; it
    compares equal to 0.0, so [set_speeds] detaches the front-right channel
    ([value = None]) instead of driving it. *)
Theorem code_8_front_right_negative_zero :
  front_right (fst (steer_table 8)) = (- 0.0)%float
  /\ classify (front_right (fst (steer_table 8))) = NZero
  /\ front_right (fst (steer_table 8)) <> 0.0%float
  /\ (front_right (fst (steer_table 8)) =? 0.0)%float = true
  /\ forall (m0 m1 m2 m3 : Servo) (c : list Output),
       exists n0 n1 n2 n3 : Servo,
         steer_vehicle four_handles 8 (mkWorld [m0; m1; m2; m3] c)
         = (Return "DIAGONAL-RIGHT", mkWorld [n0; n1; n2; n3] c)
         /\ value n1 = None
         /\ channel_state n1 = Detached
         /\ n1 = apply_speed (- 0.0)%float m1.
Proof.
  split; [reflexivity | ].
  split; [vm_compute; reflexivity | ].
  split; [vm_compute; discriminate | ].
  split; [vm_compute; reflexivity | ].
  intros. rewrite steer_vehicle_four.
  cbn [steer_table fst snd Z.eqb Pos.eqb].
  do 4 eexists. split; [reflexivity | ].
  repeat split; vm_compute; reflexivity.
Qed.

(* ================================================================== *)
(** ** Detach on zero *)

Lemma set_speeds_four_returns (fl fr rl rr : float) (m0 m1 m2 m3 : Servo)
    (c : list Output) (w' : World) :
  set_speeds four_handles fl fr rl rr (mkWorld [m0; m1; m2; m3] c)
  = (Return tt, w') ->
  forallb speed_ok [fl; fr; rl; rr] = true.
Proof.
  unfold speed_ok. cbn [forallb]. unfold_set_speeds.
  destruct (PrimFloat.eqb fl 0%float);
    [ | destruct (setter_accepts fl); [ | discriminate]];
    cbn [nth_error update_at heap console orb andb];
    (destruct (PrimFloat.eqb fr 0%float);
     [ | destruct (setter_accepts fr); [ | discriminate]]);
    cbn [nth_error update_at heap console orb andb];
    (destruct (PrimFloat.eqb rl 0%float);
     [ | destruct (setter_accepts rl); [ | discriminate]]);
    cbn [nth_error update_at heap console orb andb];
    (destruct (PrimFloat.eqb rr 0%float);
     [ | destruct (setter_accepts rr); [ | discriminate]]);
    reflexivity.
Qed.

Lemma speed_ok_of_accepted (v : float) :
  setter_accepts v = true -> speed_ok v = true.
Proof. intros H. unfold speed_ok. rewrite H. apply orb_true_r. Qed.

(** C2 as stated fails on the code: for the vector (0.5, 2.0, 0.5, 0.5)
    the setter refuses 2.0, [set_speeds] raises at the second channel, and
    the third and fourth channels, whose values 0.5 do not compare equal
    to 0.0, are still Detached. *)
Lemma set_speeds_out_of_range_aborts :
  let run :=
    set_speeds four_handles 0.5%float 2.0%float 0.5%float 0.5%float
      (mkWorld [fresh_servo 27; fresh_servo 17;
                fresh_servo 22; fresh_servo 23] []) in
  fst run = Raise (Exception "OutputDeviceBadValue")
  /\ map channel_state (heap (snd run))
     = [Active 0.5%float; Detached; Detached; Detached]
  /\ (0.5 =? 0.0)%float = false
  /\ setter_accepts 2.0%float = false.
Proof.
  cbv zeta. repeat split; vm_compute; reflexivity.
Qed.

(** C2, amended: after [set_speeds] on four values that all lie in
    [-1.0, 1.0], each of the four channels is Detached ([value = None]) if
    and only if its value compares equal to 0.0, and is otherwise Active
    with exactly that value assigned; the smallest subnormal, of either
    sign, gives an Active channel.  A value outside [-1.0, 1.0] (or a NaN)
    makes the setter raise: [set_speeds] stops there, the channels before
    it are set as above, that channel and the later ones keep their
    state. *)
Theorem set_speeds_detached_iff_zero
    (fl fr rl rr : float) (m0 m1 m2 m3 : Servo) (c : list Output) :
  (forallb setter_accepts [fl; fr; rl; rr] = true ->
   exists n0 n1 n2 n3 : Servo,
     set_speeds four_handles fl fr rl rr (mkWorld [m0; m1; m2; m3] c)
     = (Return tt, mkWorld [n0; n1; n2; n3] c)
     /\ Forall2
          (fun v n =>
             (channel_state n = Detached <-> (v =? 0.0)%float = true)
             /\ (value n = None <-> (v =? 0.0)%float = true)
             /\ channel_state n
                = if (v =? 0.0)%float then Detached else Active v)
          [fl; fr; rl; rr] [n0; n1; n2; n3]
     /\ map pin [n0; n1; n2; n3] = map pin [m0; m1; m2; m3]
     /\ map closed [n0; n1; n2; n3] = map closed [m0; m1; m2; m3])
  /\ (map channel_state
        (heap (snd (set_speeds four_handles tiny (- tiny)%float
                      tiny (- tiny)%float (mkWorld [m0; m1; m2; m3] c))))
      = [Active tiny; Active (- tiny)%float;
         Active tiny; Active (- tiny)%float])
  /\ (forall (k : nat) (v : float),
        nth_error [fl; fr; rl; rr] k = Some v ->
        speed_ok v = false ->
        forallb speed_ok (firstn k [fl; fr; rl; rr]) = true ->
        set_speeds four_handles fl fr rl rr (mkWorld [m0; m1; m2; m3] c)
        = (Raise (Exception "OutputDeviceBadValue"),
           mkWorld (drive (fl, fr, rl, rr) (firstn k [m0; m1; m2; m3])
                    ++ skipn k [m0; m1; m2; m3]) c)).
Proof.
  split; [ | split].
  - intros Hacc. cbn [forallb] in Hacc.
    apply andb_prop in Hacc. destruct Hacc as [Hfl Hacc].
    apply andb_prop in Hacc. destruct Hacc as [Hfr Hacc].
    apply andb_prop in Hacc. destruct Hacc as [Hrl Hacc].
    apply andb_prop in Hacc. destruct Hacc as [Hrr _].
    exists (apply_speed fl m0), (apply_speed fr m1),
           (apply_speed rl m2), (apply_speed rr m3).
    split; [apply set_speeds_four; apply speed_ok_of_accepted; assumption | ].
    split.
    + assert (Hone : forall v m,
                (channel_state (apply_speed v m) = Detached
                 <-> (v =? 0.0)%float = true)
                /\ (value (apply_speed v m) = None
                    <-> (v =? 0.0)%float = true)
                /\ channel_state (apply_speed v m)
                   = if (v =? 0.0)%float then Detached else Active v).
      { intros v m. unfold channel_state, apply_speed.
        destruct (PrimFloat.eqb v _); cbn;
          repeat split; intros; congruence. }
      repeat (apply Forall2_cons; [apply Hone | ]). apply Forall2_nil.
    + split; unfold apply_speed; cbn;
        repeat (destruct (PrimFloat.eqb _ _)); reflexivity.
  - rewrite set_speeds_four by (vm_compute; reflexivity). reflexivity.
  - intros k v Hk Hv Hbefore.
    destruct k as [ | [ | [ | [ | k]]]]; cbn in Hk;
      [injection Hk as <- .. | destruct k; discriminate];
      cbn [firstn forallb] in Hbefore;
      unfold speed_ok in Hv; apply orb_false_elim in Hv;
      destruct Hv as [Hz Ha];
      cbn [drive components combine map fst snd firstn skipn app];
      unfold apply_speed; unfold_set_speeds.
    + rewrite Hz, Ha. reflexivity.
    + apply andb_prop in Hbefore. destruct Hbefore as [H0 _].
      speed_step fl H0; rewrite Hz, Ha; reflexivity.
    + apply andb_prop in Hbefore. destruct Hbefore as [H0 Hbefore].
      apply andb_prop in Hbefore. destruct Hbefore as [H1 _].
      speed_step fl H0; speed_step fr H1; rewrite Hz, Ha; reflexivity.
    + apply andb_prop in Hbefore. destruct Hbefore as [H0 Hbefore].
      apply andb_prop in Hbefore. destruct Hbefore as [H1 Hbefore].
      apply andb_prop in Hbefore. destruct Hbefore as [H2 _].
      speed_step fl H0; speed_step fr H1; speed_step rl H2;
        rewrite Hz, Ha; reflexivity.
Qed.

Lemma set_speeds_detached_iff_zero_witness :
  (exists n0 n1 n2 n3 : Servo,
     set_speeds four_handles 0.725%float (- 0.5)%float 0.0%float tiny
       (mkWorld [fresh_servo 27; fresh_servo 17;
                 mkServo 22 (Some 0.75%float) false; fresh_servo 23] [])
     = (Return tt, mkWorld [n0; n1; n2; n3] [])
     /\ Forall2
          (fun v n =>
             (channel_state n = Detached <-> (v =? 0.0)%float = true)
             /\ (value n = None <-> (v =? 0.0)%float = true)
             /\ channel_state n
                = if (v =? 0.0)%float then Detached else Active v)
          [0.725%float; (- 0.5)%float; 0.0%float; tiny] [n0; n1; n2; n3]
     /\ map pin [n0; n1; n2; n3] = [27; 17; 22; 23]%Z
     /\ map closed [n0; n1; n2; n3] = [false; false; false; false])
  /\ set_speeds four_handles 0.5%float 2.0%float 0.5%float 0.5%float
       (mkWorld [fresh_servo 27; fresh_servo 17;
                 fresh_servo 22; fresh_servo 23] [])
     = (Raise (Exception "OutputDeviceBadValue"),
        mkWorld [mkServo 27 (Some 0.5%float) false; fresh_servo 17;
                 fresh_servo 22; fresh_servo 23] []).
Proof.
  split.
  - apply (proj1 (set_speeds_detached_iff_zero
                    0.725%float (- 0.5)%float 0.0%float tiny
                    (fresh_servo 27) (fresh_servo 17)
                    (mkServo 22 (Some 0.75%float) false) (fresh_servo 23) [])).
    vm_compute. reflexivity.
  - apply (proj2 (proj2 (set_speeds_detached_iff_zero
                           0.5%float 2.0%float 0.5%float 0.5%float
                           (fresh_servo 27) (fresh_servo 17)
                           (fresh_servo 22) (fresh_servo 23) []))
             1%nat 2.0%float).
    + reflexivity.
    + vm_compute. reflexivity.
    + vm_compute. reflexivity.
Defined.

(** C9: applying the same four values twice in a row through [set_speeds]
    ends exactly as applying them once, whatever the values and whatever
    state the four channels start in. *)
Theorem set_speeds_idempotent
    (fl fr rl rr : float) (m0 m1 m2 m3 : Servo) (c : list Output) :
  (set_speeds four_handles fl fr rl rr;;
   set_speeds four_handles fl fr rl rr) (mkWorld [m0; m1; m2; m3] c)
  = set_speeds four_handles fl fr rl rr (mkWorld [m0; m1; m2; m3] c).
Proof.
  unfold bind.
  destruct (set_speeds four_handles fl fr rl rr (mkWorld [m0; m1; m2; m3] c))
    as [r w'] eqn:Hrun.
  destruct r as [[] | e | ]; [ | reflexivity | reflexivity].
  pose proof (set_speeds_four_returns _ _ _ _ _ _ _ _ _ _ Hrun) as Hok.
  cbn [forallb] in Hok.
  apply andb_prop in Hok. destruct Hok as [Hfl Hok].
  apply andb_prop in Hok. destruct Hok as [Hfr Hok].
  apply andb_prop in Hok. destruct Hok as [Hrl Hok].
  apply andb_prop in Hok. destruct Hok as [Hrr _].
  rewrite set_speeds_four in Hrun by assumption.
  injection Hrun as <-.
  rewrite set_speeds_four by assumption.
  rewrite !apply_speed_idempotent. reflexivity.
Qed.

(* ================================================================== *)
(** ** The read step and one turn of the loop *)

Lemma statuses_app (a b : list Output) :
  statuses (a ++ b) = statuses a ++ statuses b.
Proof.
  induction a as [ | o a IH]; [reflexivity | ].
  destruct o; cbn; rewrite IH; reflexivity.
Qed.

Lemma statuses_erase (n : nat) : statuses (repeat PrintEraseLine n) = [].
Proof. induction n; [reflexivity | exact IHn]. Qed.

Lemma erase_lines_eq (n : nat) (w : World) :
  erase_lines n w
  = (Return tt, mkWorld (heap w) (console w ++ repeat PrintEraseLine n)).
Proof.
  revert w. induction n as [ | n IH]; intros [h c].
  - cbn. rewrite app_nil_r. reflexivity.
  - cbn [erase_lines]. unfold bind, print. rewrite IH. cbn.
    rewrite <- app_assoc. reflexivity.
Qed.

Section ReadFacts.

Variable uni_isdigit : N -> bool.
Variable uni_decimal : N -> option N.
Variable int_max_str_digits : nat.

Let read_word := read_control_word uni_isdigit uni_decimal int_max_str_digits.
Let result_of := read_result uni_isdigit uni_decimal int_max_str_digits.
Let errors_of := read_errors uni_isdigit uni_decimal int_max_str_digits.
Let to_int := int uni_decimal int_max_str_digits.

Lemma int_cases (s : pystr) :
  (exists n, to_int s = Return n
             /\ s <> [] /\ int_digits uni_decimal 0 s = Some n)
  \/ to_int s = Raise (Exception "ValueError").
Proof.
  unfold to_int, int. destruct s as [ | c s]; [right; reflexivity | ].
  destruct (_ && _); [right; reflexivity | ].
  destruct (int_digits uni_decimal 0 (c :: s)) as [n | ];
    [left; exists n; repeat split; congruence | right; reflexivity].
Qed.

Lemma int_digits_decimal (s : pystr) :
  forall acc n, int_digits uni_decimal acc s = Some n ->
    (0 <= acc)%Z ->
    (acc <= n)%Z
    /\ Forall (fun c => decimal_of_char uni_decimal c <> None) s.
Proof.
  induction s as [ | c s IH]; intros acc n H Hacc; cbn [int_digits] in H.
  - injection H as <-. split; [lia | constructor].
  - destruct (decimal_of_char uni_decimal c) as [d | ] eqn:Hd; [ | discriminate].
    destruct (IH _ _ H) as [Hle Hall]; [lia | ].
    split; [lia | ]. constructor; [congruence | exact Hall].
Qed.

Lemma read_control_word_eq (src : Source) (w : World) :
  read_word src w
  = (result_of src, mkWorld (heap w) (console w ++ errors_of src)).
Proof.
  unfold read_word, result_of, errors_of, read_result, read_errors,
    read_control_word, try_except.
  destruct w as [h c]. destruct src as [ | e | raw].
  - reflexivity.
  - unfold raise. destruct (is_Exception e); cbn;
      rewrite ?app_nil_r; reflexivity.
  - destruct (isdigit uni_isdigit (strip raw)).
    + unfold lift.
      destruct (int_cases (strip raw)) as [[n [Hn _]] | Hn];
        unfold to_int in Hn; rewrite Hn; cbn;
        rewrite ?app_nil_r; reflexivity.
    + cbn. rewrite app_nil_r. reflexivity.
Qed.

Lemma statuses_read_errors (src : Source) : statuses (errors_of src) = [].
Proof.
  unfold errors_of, read_errors, read_control_word, try_except.
  destruct src as [ | e | raw].
  - reflexivity.
  - unfold raise. destruct (is_Exception e); reflexivity.
  - destruct (isdigit uni_isdigit (strip raw)); [ | reflexivity].
    unfold lift.
    destruct (int_cases (strip raw)) as [[n [Hn _]] | Hn];
      unfold to_int in Hn; rewrite Hn; reflexivity.
Qed.

(** The read step never leaves the loop hanging, and the only exception it
    lets through is a [BaseException] out of the file access. *)
Lemma read_result_cases (src : Source) :
  match src with
  | Unreadable e =>
      result_of src = if is_Exception e then Return 0%Z else Raise e
  | Missing => result_of src = Return 0%Z
  | Text raw =>
      result_of src
      = Return (if isdigit uni_isdigit (strip raw)
                then match to_int (strip raw) with
                     | Return n => n
                     | _ => 0%Z
                     end
                else 0%Z)
  end.
Proof.
  unfold result_of, read_result, read_control_word, try_except.
  destruct src as [ | e | raw].
  - reflexivity.
  - unfold raise. destruct (is_Exception e); reflexivity.
  - destruct (isdigit uni_isdigit (strip raw)); [ | reflexivity].
    unfold lift.
    destruct (int_cases (strip raw)) as [[n [Hn _]] | Hn];
      unfold to_int in *; rewrite Hn; reflexivity.
Qed.

Lemma read_fails_result (src : Source) :
  read_fails uni_isdigit uni_decimal int_max_str_digits src = true ->
  result_of src = Return 0%Z.
Proof.
  intros Hf. pose proof (read_result_cases src) as Hc.
  destruct src as [ | e | raw]; cbn in Hf.
  - exact Hc.
  - rewrite Hf in Hc. exact Hc.
  - rewrite Hc. f_equal.
    destruct (isdigit uni_isdigit (strip raw)); [ | reflexivity].
    cbn in Hf. unfold to_int.
    destruct (int uni_decimal int_max_str_digits (strip raw));
      [discriminate | reflexivity | reflexivity].
Qed.

End ReadFacts.

Lemma steer_vehicle_drive (cw : Z) (m0 m1 m2 m3 : Servo) (c : list Output) :
  steer_vehicle four_handles cw (mkWorld [m0; m1; m2; m3] c)
  = (Return (snd (steer_table cw)),
     mkWorld (drive (fst (steer_table cw)) [m0; m1; m2; m3]) c).
Proof.
  rewrite steer_vehicle_four.
  destruct (fst (steer_table cw)) as [[[fl fr] rl] rr]. reflexivity.
Qed.

Lemma drive_four (v : DriveVector) (m0 m1 m2 m3 : Servo) :
  exists n0 n1 n2 n3 : Servo,
    drive v [m0; m1; m2; m3] = [n0; n1; n2; n3]
    /\ map pin [n0; n1; n2; n3] = map pin [m0; m1; m2; m3].
Proof.
  destruct v as [[[fl fr] rl] rr].
  exists (apply_speed fl m0), (apply_speed fr m1),
         (apply_speed rl m2), (apply_speed rr m3).
  split; [reflexivity | ].
  unfold apply_speed.
  repeat (destruct (PrimFloat.eqb _ _)); reflexivity.
Qed.

Lemma drive_stop (m0 m1 m2 m3 : Servo) :
  drive (fst (steer_table 0)) [m0; m1; m2; m3]
  = map (set_value None) [m0; m1; m2; m3].
Proof. reflexivity. Qed.

Section LoopFacts.

Variable uni_isdigit : N -> bool.
Variable uni_decimal : N -> option N.
Variable int_max_str_digits : nat.

Let run_loop := loop uni_isdigit uni_decimal int_max_str_digits.
Let result_of := read_result uni_isdigit uni_decimal int_max_str_digits.
Let errors_of := read_errors uni_isdigit uni_decimal int_max_str_digits.

(** One turn of [while True] on four servos. *)
Lemma loop_cons_four (ev : Event) (rest : list Event) (lc : nat)
    (m0 m1 m2 m3 : Servo) (c : list Output) :
  run_loop four_handles lc (ev :: rest) (mkWorld [m0; m1; m2; m3] c)
  = match result_of (source ev) with
    | Return cw =>
        let w1 :=
          mkWorld (drive (fst (steer_table cw)) [m0; m1; m2; m3])
            (c ++ errors_of (source ev) ++ repeat PrintEraseLine lc
               ++ [PrintStatus cw (snd (steer_table cw))]) in
        match wake ev with
        | Some e => (Raise e, w1)
        | None => run_loop four_handles 1%nat rest w1
        end
    | Raise e => (Raise e, mkWorld [m0; m1; m2; m3] (c ++ errors_of (source ev)))
    | Running => (Running, mkWorld [m0; m1; m2; m3] (c ++ errors_of (source ev)))
    end.
Proof.
  unfold run_loop, result_of, errors_of. cbn [loop].
  unfold bind at 1. rewrite read_control_word_eq. cbn [heap console].
  destruct (read_result _ _ _ (source ev)) as [cw | e | ]; try reflexivity.
  unfold bind at 1. rewrite steer_vehicle_drive.
  unfold bind at 1. rewrite erase_lines_eq. cbn [heap console].
  unfold bind at 1. unfold print at 1. cbn [heap console].
  rewrite <- !app_assoc.
  unfold bind, sleep. destruct (wake ev) as [e | ]; reflexivity.
Qed.

(** The loop keeps four servos on their pins, however it ends. *)
Lemma loop_four_servos (trace : list Event) :
  forall (lc : nat) (m0 m1 m2 m3 : Servo) (c : list Output),
  exists (n0 n1 n2 n3 : Servo) (c' : list Output),
    snd (run_loop four_handles lc trace (mkWorld [m0; m1; m2; m3] c))
    = mkWorld [n0; n1; n2; n3] c'
    /\ map pin [n0; n1; n2; n3] = map pin [m0; m1; m2; m3].
Proof.
  induction trace as [ | ev rest IH]; intros.
  - exists m0, m1, m2, m3, c. split; reflexivity.
  - rewrite loop_cons_four.
    destruct (result_of (source ev)) as [cw | e | ].
    + destruct (drive_four (fst (steer_table cw)) m0 m1 m2 m3)
        as (n0 & n1 & n2 & n3 & Hd & Hp).
      cbv zeta. rewrite Hd. destruct (wake ev) as [e | ].
      * do 5 eexists. split; [reflexivity | exact Hp].
      * destruct (IH 1%nat n0 n1 n2 n3
                    (c ++ errors_of (source ev) ++ repeat PrintEraseLine lc
                       ++ [PrintStatus cw (snd (steer_table cw))]))
          as (k0 & k1 & k2 & k3 & c' & Hs & Hk).
        exists k0, k1, k2, k3, c'. split; [exact Hs | ].
        rewrite Hk. exact Hp.
    + do 5 eexists. split; reflexivity.
    + do 5 eexists. split; reflexivity.
Qed.

End LoopFacts.

(* ================================================================== *)
(** ** Reading the command *)

Section ReadDegradation.

Variable uni_isdigit : N -> bool.
Variable uni_decimal : N -> option N.
Variable int_max_str_digits : nat.

Let read_word := read_control_word uni_isdigit uni_decimal int_max_str_digits.
Let fails := read_fails uni_isdigit uni_decimal int_max_str_digits.
Let run_loop := loop uni_isdigit uni_decimal int_max_str_digits.

(** C5: the read step yields the non-negative integer [n] that the
    stripped text of the file spells when that text is all digits, and it
    yields a code other than the default 0 only then; an absent file, an
    exception while reading, or any other text gives code 0 and leaves the
    servos alone; and on [N] such failures in a row the loop runs [N]
    cycles, each applying the STOP vector, and is still running
    afterwards. *)
Theorem read_failures_degrade_to_stop :
  (forall (raw : pystr) (w : World) (n : Z),
     isdigit uni_isdigit (strip raw) = true ->
     int uni_decimal int_max_str_digits (strip raw) = Return n ->
     fst (read_word (Text raw) w) = Return n /\ (0 <= n)%Z)
  /\ (forall (src : Source) (w : World) (n : Z),
     fst (read_word src w) = Return n -> n <> 0%Z ->
     exists raw : pystr,
       src = Text raw
       /\ isdigit uni_isdigit (strip raw) = true
       /\ Forall (fun c => decimal_of_char uni_decimal c <> None) (strip raw)
       /\ int uni_decimal int_max_str_digits (strip raw) = Return n
       /\ int_digits uni_decimal 0 (strip raw) = Some n
       /\ (0 < n)%Z)
  /\ (forall (src : Source) (w : World),
        fails src = true ->
        fst (read_word src w) = Return 0%Z
        /\ heap (snd (read_word src w)) = heap w)
  /\ (forall (trace : list Event) (lc : nat) (m0 m1 m2 m3 : Servo)
             (c : list Output),
        Forall (fun ev => fails (source ev) = true /\ wake ev = None) trace ->
        exists c' : list Output,
          run_loop four_handles lc trace (mkWorld [m0; m1; m2; m3] c)
          = (Running,
             mkWorld match trace with
                     | [] => [m0; m1; m2; m3]
                     | _ :: _ => map (set_value None) [m0; m1; m2; m3]
                     end c')
          /\ statuses c'
             = statuses c
               ++ repeat (0%Z, "STOP (Detached)") (List.length trace)).
Proof.
  unfold read_word, fails, run_loop. split; [ | split; [ | split]].
  - intros raw w n Hd Hi.
    rewrite read_control_word_eq. cbn [fst].
    pose proof (read_result_cases uni_isdigit uni_decimal
                  int_max_str_digits (Text raw)) as Hc.
    cbv beta iota in Hc. rewrite Hc, Hd, Hi. split; [reflexivity | ].
    destruct (int_cases uni_decimal int_max_str_digits (strip raw))
      as [(k & Hk & _ & Hdig) | Hv]; [ | congruence].
    assert (k = n) by congruence. subst k.
    destruct (int_digits_decimal uni_decimal _ _ _ Hdig) as [Hle _]; lia.
  - intros src w n Hret Hn.
    rewrite read_control_word_eq in Hret. cbn [fst] in Hret.
    pose proof (read_result_cases uni_isdigit uni_decimal
                  int_max_str_digits src) as Hc.
    destruct src as [ | e | raw].
    + rewrite Hc in Hret. congruence.
    + rewrite Hc in Hret. destruct (is_Exception e); congruence.
    + rewrite Hc in Hret. injection Hret as Hret.
      exists raw. split; [reflexivity | ].
      destruct (isdigit uni_isdigit (strip raw)); [ | congruence].
      split; [reflexivity | ].
      destruct (int_cases uni_decimal int_max_str_digits (strip raw))
        as [(k & Hk & _ & Hd) | Hv].
      * rewrite Hk in Hret. subst k.
        destruct (int_digits_decimal uni_decimal _ _ _ Hd) as [Hle Hall];
          [lia | ].
        repeat split; try assumption; lia.
      * rewrite Hv in Hret. congruence.
  - intros src w Hf. rewrite read_control_word_eq. cbn [fst snd heap].
    split; [ | reflexivity].
    apply read_fails_result. exact Hf.
  - intros trace. induction trace as [ | ev rest IH];
      intros lc m0 m1 m2 m3 c Hall.
    + exists c. split; [reflexivity | ]. cbn. rewrite app_nil_r. reflexivity.
    + inversion Hall as [ | ev' rest' [Hf Hw] Hrest]; subst.
      rewrite loop_cons_four.
      rewrite (read_fails_result _ _ _ _ Hf). cbv zeta. rewrite Hw.
      rewrite drive_stop. cbn [map].
      destruct (IH 1%nat (set_value None m0) (set_value None m1)
                  (set_value None m2) (set_value None m3)
                  (c ++ read_errors uni_isdigit uni_decimal
                          int_max_str_digits (source ev)
                     ++ repeat PrintEraseLine lc
                     ++ [PrintStatus 0 (snd (steer_table 0))])
                  Hrest) as (c' & Hrun & Hst).
      exists c'. split.
      * rewrite Hrun. destruct rest; reflexivity.
      * rewrite Hst. rewrite !statuses_app.
        rewrite statuses_read_errors, statuses_erase.
        cbn. rewrite <- app_assoc. reflexivity.
Qed.

End ReadDegradation.

Lemma read_failures_degrade_to_stop_witness :
  (fst (read_control_word ascii_isdigit ascii_decimal 4300
          (Text (pystr_of_string "08")) initial_world) = Return 8%Z
   /\ (0 <= 8)%Z)
  /\ (exists raw : pystr,
     Text (pystr_of_string " 42 ") = Text raw
     /\ isdigit ascii_isdigit (strip raw) = true
     /\ Forall (fun c => decimal_of_char ascii_decimal c <> None) (strip raw)
     /\ int ascii_decimal 4300 (strip raw) = Return 42%Z
     /\ int_digits ascii_decimal 0 (strip raw) = Some 42%Z
     /\ (0 < 42)%Z)
  /\ fst (read_control_word ascii_isdigit ascii_decimal 4300
            (Text (pystr_of_string "4 2")) initial_world) = Return 0%Z
  /\ exists c' : list Output,
       loop ascii_isdigit ascii_decimal 4300 four_handles 0
         [Cycle Missing None;
          Cycle (Text (pystr_of_string "-1")) None;
          Cycle (Unreadable (Exception "PermissionError")) None]
         (mkWorld [mkServo 27 (Some 0.725%float) false; fresh_servo 17;
                   fresh_servo 22; fresh_servo 23] [])
       = (Running,
          mkWorld [fresh_servo 27; fresh_servo 17;
                   fresh_servo 22; fresh_servo 23] c')
       /\ statuses c'
          = [(0%Z, "STOP (Detached)"); (0%Z, "STOP (Detached)");
             (0%Z, "STOP (Detached)")].
Proof.
  destruct (read_failures_degrade_to_stop ascii_isdigit ascii_decimal 4300)
    as (Hyield & Honly & Hzero & Hloop).
  split; [ | split; [ | split]].
  - apply (Hyield (pystr_of_string "08") initial_world 8%Z);
      vm_compute; reflexivity.
  - apply (Honly (Text (pystr_of_string " 42 ")) initial_world 42%Z);
      [vm_compute; reflexivity | discriminate].
  - apply Hzero. vm_compute. reflexivity.
  - apply (Hloop [Cycle Missing None;
                  Cycle (Text (pystr_of_string "-1")) None;
                  Cycle (Unreadable (Exception "PermissionError")) None]).
    repeat constructor.
Defined.

(* ================================================================== *)
(** ** Leaving the loop: the cleanup *)

Section Cleanup.

Variable release : Z -> option exn.
Variable interrupt : Z -> option exn.

Ltac cleanup_step :=
  cbn [update_at heap console nth_error pin set_value mark_closed].

Ltac run_cleanup :=
  unfold four_handles; cbn [cleanup_loop];
  unfold close, deref, signal, assign_value, modify, ret, raise, bind;
  cleanup_step.

(** The cleanup loop when nothing raises in it: every servo is detached
    and closed. *)
Lemma cleanup_four_ok (m0 m1 m2 m3 : Servo) (c : list Output) :
  (forall m, In m [m0; m1; m2; m3] -> interrupt (pin m) = None) ->
  (forall m, In m [m0; m1; m2; m3] -> release (pin m) = None) ->
  cleanup_loop release interrupt four_handles (mkWorld [m0; m1; m2; m3] c)
  = (Return tt, mkWorld (map detach_and_close [m0; m1; m2; m3]) c).
Proof.
  intros Hint Hok. run_cleanup.
  rewrite (Hint m0) by (cbn; tauto). cleanup_step.
  rewrite (Hok m0) by (cbn; tauto). cleanup_step.
  rewrite (Hint m1) by (cbn; tauto). cleanup_step.
  rewrite (Hok m1) by (cbn; tauto). cleanup_step.
  rewrite (Hint m2) by (cbn; tauto). cleanup_step.
  rewrite (Hok m2) by (cbn; tauto). cleanup_step.
  rewrite (Hint m3) by (cbn; tauto). cleanup_step.
  rewrite (Hok m3) by (cbn; tauto). cleanup_step.
  reflexivity.
Qed.

End Cleanup.

Section LoopExit.

Variable uni_isdigit : N -> bool.
Variable uni_decimal : N -> option N.
Variable int_max_str_digits : nat.

Let run_loop := loop uni_isdigit uni_decimal int_max_str_digits.
Let result_of := read_result uni_isdigit uni_decimal int_max_str_digits.

Lemma loop_exit_none (ev : Event) :
  loop_exit ev = None ->
  wake ev = None /\ exists cw, result_of (source ev) = Return cw.
Proof.
  unfold loop_exit, result_of. intros H.
  pose proof (read_result_cases uni_isdigit uni_decimal
                int_max_str_digits (source ev)) as Hc.
  destruct (source ev) as [ | e | raw].
  - split; [exact H | eexists; exact Hc].
  - destruct (is_Exception e); [ | discriminate].
    split; [exact H | eexists; exact Hc].
  - split; [exact H | eexists; exact Hc].
Qed.

Lemma loop_exit_some (ev : Event) (e : exn) :
  loop_exit ev = Some e ->
  result_of (source ev) = Raise e
  \/ (wake ev = Some e /\ exists cw, result_of (source ev) = Return cw).
Proof.
  unfold loop_exit, result_of. intros H.
  pose proof (read_result_cases uni_isdigit uni_decimal
                int_max_str_digits (source ev)) as Hc.
  destruct (source ev) as [ | e' | raw].
  - right. split; [exact H | eexists; exact Hc].
  - destruct (is_Exception e').
    + right. split; [exact H | eexists; exact Hc].
    + left. injection H as <-. exact Hc.
  - right. split; [exact H | eexists; exact Hc].
Qed.

(** [while True] never returns: it raises or is still running. *)
Lemma loop_never_returns (trace : list Event) :
  forall (lc : nat) (m0 m1 m2 m3 : Servo) (c : list Output) (a : unit),
    fst (run_loop four_handles lc trace (mkWorld [m0; m1; m2; m3] c))
    <> Return a.
Proof.
  induction trace as [ | ev rest IH]; intros lc m0 m1 m2 m3 c a.
  - discriminate.
  - unfold run_loop. rewrite loop_cons_four.
    destruct (read_result _ _ _ (source ev)) as [cw | e | ];
      [ | discriminate | discriminate].
    cbv zeta. destruct (wake ev) as [e | ]; [discriminate | ].
    destruct (drive_four (fst (steer_table cw)) m0 m1 m2 m3)
      as (n0 & n1 & n2 & n3 & Hd & _).
    rewrite Hd. apply IH.
Qed.

(** The loop ends at the first event that raises out of it. *)
Lemma loop_exits (quiet : list Event) (ev : Event) (rest : list Event)
    (e : exn) :
  Forall (fun q => loop_exit q = None) quiet ->
  loop_exit ev = Some e ->
  forall (lc : nat) (m0 m1 m2 m3 : Servo) (c : list Output),
    fst (run_loop four_handles lc (quiet ++ ev :: rest)
           (mkWorld [m0; m1; m2; m3] c)) = Raise e.
Proof.
  intros Hq He. induction Hq as [ | q quiet Hq1 Hq IH]; intros.
  - cbn [app]. unfold run_loop. rewrite loop_cons_four.
    destruct (loop_exit_some ev e He) as [Hr | [Hw [cw Hr]]];
      unfold result_of in Hr; rewrite Hr.
    + reflexivity.
    + cbv zeta. rewrite Hw. reflexivity.
  - cbn [app]. unfold run_loop. rewrite loop_cons_four.
    destruct (loop_exit_none q Hq1) as [Hw [cw Hr]].
    unfold result_of in Hr; rewrite Hr. cbv zeta. rewrite Hw.
    destruct (drive_four (fst (steer_table cw)) m0 m1 m2 m3)
      as (n0 & n1 & n2 & n3 & Hd & _).
    rewrite Hd. apply IH.
Qed.

End LoopExit.

Section Shutdown.

Variable uni_isdigit : N -> bool.
Variable uni_decimal : N -> option N.
Variable int_max_str_digits : nat.
Variable release : Z -> option exn.
Variable interrupt : Z -> option exn.
Variable farewell : option exn.

Let run_loop := loop uni_isdigit uni_decimal int_max_str_digits.

Lemma main_unfold (all_motors : list nat) (trace : list Event)
    (h : list Servo) (c : list Output) :
  main uni_isdigit uni_decimal int_max_str_digits release interrupt farewell
    all_motors trace (mkWorld h c)
  = try_finally
      (try_except (run_loop all_motors 0%nat trace) is_KeyboardInterrupt
         (fun _ => print (Print interrupted_line)))
      (cleanup_loop release interrupt all_motors;;
       signal farewell;;
       print (Print "[INFO] Cleanup complete. Script finished."))
      (mkWorld h (c ++ banner)).
Proof.
  unfold main, banner.
  do 4 (unfold bind at 1; unfold print at 1; cbn [heap console]).
  rewrite <- !app_assoc. reflexivity.
Qed.

End Shutdown.

(** C7: the code at the failing input.  The loop is left (Ctrl-C while
    reading, all four channels at 0.75), [close()] raises on the third
    servo, and the fourth channel is still Active when the process
    finishes: not every channel is forced to Detached. *)
Lemma exit_leaves_channel_active :
  let run :=
    program ascii_isdigit ascii_decimal 4300 no_fault
      (fault_on REAR_LEFT_PIN (Exception "OSError")) no_fault None
      [Cycle (Text (pystr_of_string "6")) None;
       Cycle (Unreadable KeyboardInterrupt) None]
      initial_world in
  fst run = Raise (Exception "OSError")
  /\ map pin (heap (snd run)) = [27; 17; 22; 23]%Z
  /\ map channel_state (heap (snd run))
     = [Detached; Detached; Detached; Active 0.75%float]
  /\ ~ Forall (fun m => value m = None) (heap (snd run)).
Proof.
  cbv zeta. split; [vm_compute; reflexivity | ].
  split; [vm_compute; reflexivity | ].
  split; [vm_compute; reflexivity | ].
  intros H. rewrite Forall_forall in H.
  specialize (H (mkServo 23 (Some 0.75%float) false)).
  assert (Hin : In (mkServo 23 (Some 0.75%float) false)
                  (heap (snd (program ascii_isdigit ascii_decimal 4300
                                no_fault
                                (fault_on REAR_LEFT_PIN (Exception "OSError"))
                                no_fault None
                                [Cycle (Text (pystr_of_string "6")) None;
                                 Cycle (Unreadable KeyboardInterrupt) None]
                                initial_world)))).
  { vm_compute. tauto. }
  specialize (H Hin). discriminate.
Qed.

(** C3: the code at the failing input.  Ctrl-C arrives while the vehicle
    drives forward, [close()] raises on the first servo, and the cleanup
    never reaches the other three: they are neither detached nor closed,
    so the shutdown of one channel was not isolated from the others. *)
Lemma shutdown_not_isolated :
  let run :=
    program ascii_isdigit ascii_decimal 4300 no_fault
      (fault_on FRONT_LEFT_PIN (Exception "OSError")) no_fault None
      [Cycle (Text (pystr_of_string "1")) (Some KeyboardInterrupt)]
      initial_world in
  fst run = Raise (Exception "OSError")
  /\ map pin (heap (snd run)) = [27; 17; 22; 23]%Z
  /\ map channel_state (heap (snd run))
     = [Detached; Active (- 0.5)%float; Active 0.725%float;
        Active (- 0.5)%float]
  /\ map closed (heap (snd run)) = [false; false; false; false]
  /\ ~ Forall (fun m => channel_state m = Detached) (heap (snd run)).
Proof.
  cbv zeta. split; [vm_compute; reflexivity | ].
  split; [vm_compute; reflexivity | ].
  split; [vm_compute; reflexivity | ].
  split; [vm_compute; reflexivity | ].
  intros H. rewrite Forall_forall in H.
  specialize (H (mkServo 17 (Some (- 0.5)%float) false)).
  assert (Hin : In (mkServo 17 (Some (- 0.5)%float) false)
                  (heap (snd (program ascii_isdigit ascii_decimal 4300
                                no_fault
                                (fault_on FRONT_LEFT_PIN (Exception "OSError"))
                                no_fault None
                                [Cycle (Text (pystr_of_string "1"))
                                   (Some KeyboardInterrupt)]
                                initial_world)))).
  { vm_compute. tauto. }
  specialize (H Hin). discriminate.
Qed.

(* ================================================================== *)
(** ** Initialisation *)

Section Initialisation.

Variable uni_isdigit : N -> bool.
Variable uni_decimal : N -> option N.
Variable int_max_str_digits : nat.
Variable acquire : Z -> option exn.
Variable release : Z -> option exn.
Variable interrupt : Z -> option exn.
Variable farewell : option exn.

Let run_program :=
  program uni_isdigit uni_decimal int_max_str_digits acquire release
    interrupt farewell.

Ltac run_init :=
  unfold init_all_motors, init_motor, Servo_new, sys_exit, try_except,
    new_servo, raise, print, ret, bind;
  cbn [heap console List.length app].

(** When every servo is acquired, [all_motors] is the four handles and the
    heap holds four detached servos, in the order of [motor_pins]. *)
Lemma init_all_motors_ok :
  (forall q, In q motor_pins -> acquire q = None) ->
  init_all_motors acquire initial_world
  = (Return four_handles, mkWorld (map fresh_servo motor_pins) []).
Proof.
  intros Hok. unfold initial_world. run_init.
  rewrite (Hok FRONT_LEFT_PIN) by (cbn; tauto). cbn [heap console List.length app].
  rewrite (Hok FRONT_RIGHT_PIN) by (cbn; tauto). cbn [heap console List.length app].
  rewrite (Hok REAR_LEFT_PIN) by (cbn; tauto). cbn [heap console List.length app].
  rewrite (Hok REAR_RIGHT_PIN) by (cbn; tauto). cbn [heap console List.length app].
  reflexivity.
Qed.


End Initialisation.


(* ================================================================== *)
(** ** Further properties of the drive table and of [set_speeds] *)

Lemma steer_table_in_rows (cw : Z) : In (steer_table cw) steer_rows.
Proof.
  unfold steer_rows. cbn [map In].
  destruct (Z.eqb_spec cw 1) as [-> | H1]; [tauto | ].
  destruct (Z.eqb_spec cw 2) as [-> | H2]; [tauto | ].
  destruct (Z.eqb_spec cw 3) as [-> | H3]; [tauto | ].
  destruct (Z.eqb_spec cw 4) as [-> | H4]; [tauto | ].
  destruct (Z.eqb_spec cw 5) as [-> | H5]; [tauto | ].
  destruct (Z.eqb_spec cw 6) as [-> | H6]; [tauto | ].
  destruct (Z.eqb_spec cw 7) as [-> | H7]; [tauto | ].
  destruct (Z.eqb_spec cw 8) as [-> | H8]; [tauto | ].
  do 8 right. left. unfold steer_table.
  repeat match goal with
         | |- context [Z.eqb cw ?k] =>
             replace (Z.eqb cw k) with false by (symmetry; apply Z.eqb_neq; lia)
         end.
  reflexivity.
Qed.

Lemma apply_speed_absorbs (u v : float) (m : Servo) :
  apply_speed v (apply_speed u m) = apply_speed v m.
Proof.
  unfold apply_speed.
  destruct (PrimFloat.eqb u _); destruct (PrimFloat.eqb v _); reflexivity.
Qed.

Lemma drive_absorbs (u v : DriveVector) (m0 m1 m2 m3 : Servo) :
  drive v (drive u [m0; m1; m2; m3]) = drive v [m0; m1; m2; m3].
Proof.
  destruct u as [[[a0 a1] a2] a3]. destruct v as [[[b0 b1] b2] b3].
  cbn. rewrite !apply_speed_absorbs. reflexivity.
Qed.

Lemma drive_keeps_closed (v : DriveVector) (m0 m1 m2 m3 : Servo) :
  map closed (drive v [m0; m1; m2; m3]) = map closed [m0; m1; m2; m3]
  /\ map pin (drive v [m0; m1; m2; m3]) = map pin [m0; m1; m2; m3].
Proof.
  destruct v as [[[a0 a1] a2] a3]. cbn. unfold apply_speed.
  repeat (destruct (PrimFloat.eqb _ _)); split; reflexivity.
Qed.

(** X1: which channels [steer_vehicle] leaves with a signal depends on the
    code alone: all four for codes 1 to 6, front-right and rear-left for
    code 7, front-left and rear-right for code 8, and none for any other
    integer. *)
Theorem steer_vehicle_active_channels
    (cw : Z) (m0 m1 m2 m3 : Servo) (c : list Output) :
  map is_active
    (heap (snd (steer_vehicle four_handles cw (mkWorld [m0; m1; m2; m3] c))))
  = if ((1 <=? cw) && (cw <=? 6))%Z then [true; true; true; true]
    else if (cw =? 7)%Z then [false; true; true; false]
    else if (cw =? 8)%Z then [true; false; false; true]
    else [false; false; false; false].
Proof.
  rewrite steer_vehicle_four. cbn [snd heap].
  destruct (Z.eqb_spec cw 1) as [-> | H1]; [vm_compute; reflexivity | ].
  destruct (Z.eqb_spec cw 2) as [-> | H2]; [vm_compute; reflexivity | ].
  destruct (Z.eqb_spec cw 3) as [-> | H3]; [vm_compute; reflexivity | ].
  destruct (Z.eqb_spec cw 4) as [-> | H4]; [vm_compute; reflexivity | ].
  destruct (Z.eqb_spec cw 5) as [-> | H5]; [vm_compute; reflexivity | ].
  destruct (Z.eqb_spec cw 6) as [-> | H6]; [vm_compute; reflexivity | ].
  destruct (Z.eqb_spec cw 7) as [-> | H7]; [vm_compute; reflexivity | ].
  destruct (Z.eqb_spec cw 8) as [-> | H8]; [vm_compute; reflexivity | ].
  replace ((1 <=? cw)%Z && (cw <=? 6)%Z) with false
    by (symmetry; apply andb_false_iff;
        destruct (Z.leb_spec 1 cw); [right; apply Z.leb_gt; lia | left; reflexivity]).
  replace (cw =? 7)%Z with false by (symmetry; apply Z.eqb_neq; lia).
  replace (cw =? 8)%Z with false by (symmetry; apply Z.eqb_neq; lia).
  unfold steer_table.
  repeat match goal with
         | |- context [Z.eqb cw ?k] =>
             replace (Z.eqb cw k) with false by (symmetry; apply Z.eqb_neq; lia)
         end.
  reflexivity.
Qed.

(** X2: the action [steer_vehicle] reports identifies the speeds it set:
    two codes with the same action have the same four speeds; and the
    action is never the empty string the function starts from. *)
Theorem steer_action_determines_speeds (cw cw' : Z) :
  (snd (steer_table cw) = snd (steer_table cw') ->
   fst (steer_table cw) = fst (steer_table cw'))
  /\ snd (steer_table cw) <> "".
Proof.
  pose proof (steer_table_in_rows cw) as H.
  pose proof (steer_table_in_rows cw') as H'.
  unfold steer_rows in H, H'. cbn [map In] in H, H'.
  split.
  - repeat (destruct H as [H | H]); try contradiction;
      repeat (destruct H' as [H' | H']); try contradiction;
      rewrite <- H, <- H'; cbn [fst snd steer_table Z.eqb Pos.eqb];
      intros Heq; try reflexivity; discriminate Heq.
  - repeat (destruct H as [H | H]); try contradiction;
      rewrite <- H; discriminate.
Qed.

Lemma steer_action_determines_speeds_witness :
  fst (steer_table 0) = fst (steer_table 12).
Proof.
  apply (proj1 (steer_action_determines_speeds 0 12)). reflexivity.
Defined.

(** X3: the last command wins: running [steer_vehicle] for one code and
    then for another leaves the four servos, the terminal and the returned
    action exactly as running it for the second code alone; nothing of the
    earlier speeds is kept. *)
Theorem steer_vehicle_last_wins
    (cw cw' : Z) (m0 m1 m2 m3 : Servo) (c : list Output) :
  (steer_vehicle four_handles cw';; steer_vehicle four_handles cw)
    (mkWorld [m0; m1; m2; m3] c)
  = steer_vehicle four_handles cw (mkWorld [m0; m1; m2; m3] c).
Proof.
  unfold bind. rewrite (steer_vehicle_drive cw').
  destruct (drive_four (fst (steer_table cw')) m0 m1 m2 m3)
    as (n0 & n1 & n2 & n3 & Hd & _).
  rewrite Hd. rewrite !steer_vehicle_drive. rewrite <- Hd.
  rewrite drive_absorbs. reflexivity.
Qed.

(* ================================================================== *)
(** ** Further properties of the loop *)

Lemma erasures_app (a b : list Output) :
  erasures (a ++ b) = (erasures a + erasures b)%nat.
Proof.
  induction a as [ | o a IH]; [reflexivity | ].
  destruct o; cbn; rewrite IH; reflexivity.
Qed.

Lemma erasures_repeat (n : nat) : erasures (repeat PrintEraseLine n) = n.
Proof. induction n; [reflexivity | cbn; rewrite IHn; reflexivity]. Qed.

Section LoopRuns.

Variable uni_isdigit : N -> bool.
Variable uni_decimal : N -> option N.
Variable int_max_str_digits : nat.

Let run_loop := loop uni_isdigit uni_decimal int_max_str_digits.
Let result_of := read_result uni_isdigit uni_decimal int_max_str_digits.
Let errors_of := read_errors uni_isdigit uni_decimal int_max_str_digits.
Let word_of := cycle_word uni_isdigit uni_decimal int_max_str_digits.

Lemma erasures_read_errors (src : Source) : erasures (errors_of src) = O.
Proof.
  unfold errors_of, read_errors, read_control_word, try_except.
  destruct src as [ | e | raw].
  - reflexivity.
  - unfold raise. destruct (is_Exception e); reflexivity.
  - destruct (isdigit uni_isdigit (strip raw)); [ | reflexivity].
    unfold lift.
    destruct (int_cases uni_decimal int_max_str_digits (strip raw))
      as [[n [Hn _]] | Hn]; rewrite Hn; reflexivity.
Qed.

(** The loop on a trace none of whose events raises out of it. *)
Lemma loop_quiet (trace : list Event) :
  Forall (fun q => loop_exit q = None) trace ->
  forall (ev0 : Event) (lc : nat) (m0 m1 m2 m3 : Servo) (c : list Output),
  exists c' : list Output,
    run_loop four_handles lc trace (mkWorld [m0; m1; m2; m3] c)
    = (Running,
       mkWorld match trace with
               | [] => [m0; m1; m2; m3]
               | _ :: _ =>
                   drive (fst (steer_table (word_of (last trace ev0))))
                     [m0; m1; m2; m3]
               end c')
    /\ statuses c'
       = statuses c
         ++ map (fun ev => (word_of ev, snd (steer_table (word_of ev)))) trace
    /\ erasures c'
       = (erasures c
          + match trace with
            | [] => 0
            | _ :: rest => lc + List.length rest
            end)%nat.
Proof.
  intros Hq. induction Hq as [ | ev rest Hev Hrest IH]; intros.
  - exists c. cbn. rewrite app_nil_r, Nat.add_0_r. repeat split.
  - destruct (loop_exit_none uni_isdigit uni_decimal int_max_str_digits ev Hev)
      as [Hw [cw Hr]].
    unfold run_loop. rewrite loop_cons_four. rewrite Hr. cbv zeta. rewrite Hw.
    assert (Hword : word_of ev = cw)
      by (unfold word_of, cycle_word; rewrite Hr; reflexivity).
    destruct (drive_four (fst (steer_table cw)) m0 m1 m2 m3)
      as (n0 & n1 & n2 & n3 & Hd & _).
    rewrite Hd.
    destruct (IH ev0 1%nat n0 n1 n2 n3
                (c ++ read_errors uni_isdigit uni_decimal int_max_str_digits
                        (source ev)
                   ++ repeat PrintEraseLine lc
                   ++ [PrintStatus cw (snd (steer_table cw))]))
      as (c' & Hrun & Hst & Her).
    exists c'. split; [ | split].
    + unfold run_loop in Hrun. rewrite Hrun. f_equal. f_equal.
      destruct rest as [ | ev' rest'].
      * cbn [last]. rewrite Hword. symmetry. exact Hd.
      * rewrite <- Hd. rewrite drive_absorbs. reflexivity.
    + rewrite Hst. rewrite !statuses_app.
      rewrite statuses_read_errors, statuses_erase.
      cbn [statuses map app]. rewrite Hword.
      rewrite <- app_assoc. reflexivity.
    + rewrite Her. rewrite !erasures_app.
      fold errors_of. rewrite erasures_read_errors, erasures_repeat.
      cbn [erasures]. destruct rest; cbn [List.length]; lia.
Qed.

(** What a run of cycles that do not leave the loop writes, in order. *)
Lemma loop_quiet_console (trace : list Event) :
  Forall (fun q => loop_exit q = None) trace ->
  forall (lc : nat) (m0 m1 m2 m3 : Servo) (c : list Output),
    console (snd (run_loop four_handles lc trace (mkWorld [m0; m1; m2; m3] c)))
    = c ++ match trace with
           | [] => []
           | ev :: rest =>
               cycle_lines uni_isdigit uni_decimal int_max_str_digits lc ev
               ++ flat_map
                    (cycle_lines uni_isdigit uni_decimal int_max_str_digits 1)
                    rest
           end.
Proof.
  intros Hq. induction Hq as [ | ev rest Hev Hrest IH]; intros.
  - cbn. rewrite app_nil_r. reflexivity.
  - destruct (loop_exit_none uni_isdigit uni_decimal int_max_str_digits ev Hev)
      as [Hw [cw Hr]].
    unfold run_loop. rewrite loop_cons_four. rewrite Hr. cbv zeta. rewrite Hw.
    assert (Hword : cycle_word uni_isdigit uni_decimal int_max_str_digits ev
                    = cw)
      by (unfold cycle_word; rewrite Hr; reflexivity).
    destruct (drive_four (fst (steer_table cw)) m0 m1 m2 m3)
      as (n0 & n1 & n2 & n3 & Hd & _).
    rewrite Hd. unfold run_loop in IH. rewrite IH.
    assert (Hrest' : match rest with
                     | [] => []
                     | ev' :: rest' =>
                         cycle_lines uni_isdigit uni_decimal
                           int_max_str_digits 1 ev'
                         ++ flat_map
                              (cycle_lines uni_isdigit uni_decimal
                                 int_max_str_digits 1) rest'
                     end
                     = flat_map
                         (cycle_lines uni_isdigit uni_decimal
                            int_max_str_digits 1) rest)
      by (destruct rest; reflexivity).
    rewrite Hrest'. cbn [snd console]. unfold cycle_lines at 2.
    rewrite Hword. rewrite <- !app_assoc. reflexivity.
Qed.

End LoopRuns.

Section LoopProperties.

Variable uni_isdigit : N -> bool.
Variable uni_decimal : N -> option N.
Variable int_max_str_digits : nat.

Let run_loop := loop uni_isdigit uni_decimal int_max_str_digits.
Let word_of := cycle_word uni_isdigit uni_decimal int_max_str_digits.

(** X4: while the loop runs, the four servos follow the last command only:
    after any number of cycles that do not leave the loop, they are the
    servos the loop started with, set to the speeds of the control word of
    the last cycle; a channel is Detached exactly where that speed compares
    equal to 0.0, whatever was commanded before. *)
Theorem loop_servos_follow_last_command
    (earlier : list Event) (ev : Event) (lc : nat)
    (m0 m1 m2 m3 : Servo) (c : list Output) :
  Forall (fun q => loop_exit q = None) earlier ->
  loop_exit ev = None ->
  fst (run_loop four_handles lc (earlier ++ [ev]) (mkWorld [m0; m1; m2; m3] c))
  = Running
  /\ heap (snd (run_loop four_handles lc (earlier ++ [ev])
                  (mkWorld [m0; m1; m2; m3] c)))
     = drive (fst (steer_table (word_of ev))) [m0; m1; m2; m3]
  /\ map channel_state
       (heap (snd (run_loop four_handles lc (earlier ++ [ev])
                     (mkWorld [m0; m1; m2; m3] c))))
     = map (fun v => if (v =? 0.0)%float then Detached else Active v)
         (components (fst (steer_table (word_of ev)))).
Proof.
  intros Hq Hev.
  assert (Hall : Forall (fun q => loop_exit q = None) (earlier ++ [ev])).
  { apply Forall_app. split; [exact Hq | constructor; [exact Hev | constructor]]. }
  destruct (loop_quiet uni_isdigit uni_decimal int_max_str_digits
              (earlier ++ [ev]) Hall ev lc m0 m1 m2 m3 c)
    as (c' & Hrun & _).
  unfold run_loop. rewrite Hrun. cbn [fst snd heap].
  rewrite last_last.
  assert (Hshape : match earlier ++ [ev] with
                   | [] => [m0; m1; m2; m3]
                   | _ :: _ =>
                       drive (fst (steer_table
                                     (cycle_word uni_isdigit uni_decimal
                                        int_max_str_digits ev)))
                         [m0; m1; m2; m3]
                   end
                   = drive (fst (steer_table (word_of ev))) [m0; m1; m2; m3])
    by (destruct earlier; reflexivity).
  rewrite Hshape. split; [reflexivity | ]. split; [reflexivity | ].
  destruct (fst (steer_table (word_of ev))) as [[[fl fr] rl] rr].
  cbn [drive components combine map fst snd].
  rewrite !channel_state_apply_speed. reflexivity.
Qed.

(** X5: on every trace, and however it ends, [while True] never returns
    normally, and it leaves four servos behind that sit on the same pins
    and are exactly as closed as before: the loop never releases a
    device. *)
Theorem loop_keeps_devices
    (trace : list Event) (lc : nat) (m0 m1 m2 m3 : Servo) (c : list Output) :
  (forall a : unit,
     fst (run_loop four_handles lc trace (mkWorld [m0; m1; m2; m3] c))
     <> Return a)
  /\ exists (n0 n1 n2 n3 : Servo) (c' : list Output),
       snd (run_loop four_handles lc trace (mkWorld [m0; m1; m2; m3] c))
       = mkWorld [n0; n1; n2; n3] c'
       /\ map pin [n0; n1; n2; n3] = map pin [m0; m1; m2; m3]
       /\ map closed [n0; n1; n2; n3] = map closed [m0; m1; m2; m3].
Proof.
  split; [apply loop_never_returns | ].
  revert lc m0 m1 m2 m3 c.
  induction trace as [ | ev rest IH]; intros.
  - exists m0, m1, m2, m3, c. repeat split.
  - unfold run_loop. rewrite loop_cons_four.
    destruct (read_result _ _ _ (source ev)) as [cw | e | ].
    + destruct (drive_four (fst (steer_table cw)) m0 m1 m2 m3)
        as (n0 & n1 & n2 & n3 & Hd & _).
      destruct (drive_keeps_closed (fst (steer_table cw)) m0 m1 m2 m3)
        as [Hc Hp].
      rewrite Hd in Hc, Hp. cbv zeta. rewrite Hd.
      destruct (wake ev) as [e | ].
      * do 5 eexists. split; [reflexivity | split; assumption].
      * destruct (IH 1%nat n0 n1 n2 n3
                    (c ++ read_errors uni_isdigit uni_decimal
                            int_max_str_digits (source ev)
                       ++ repeat PrintEraseLine lc
                       ++ [PrintStatus cw (snd (steer_table cw))]))
          as (k0 & k1 & k2 & k3 & c' & Hs & Hkp & Hkc).
        exists k0, k1, k2, k3, c'.
        split; [exact Hs | ].
        split; [rewrite Hkp; exact Hp | rewrite Hkc; exact Hc].
    + do 5 eexists. repeat split.
    + do 5 eexists. repeat split.
Qed.

(** X6: what the loop writes to the terminal while it runs, cycle by
    cycle and in this order: the error line of the read step if there is
    one, then the erase sequences ([line_count] of them in the first cycle,
    so none when the run starts with [line_count = 0], and exactly one in
    every later cycle), then one status line carrying the control word of
    the cycle and the action [steer_vehicle] returned for it.  So there is
    one status line per cycle, and every one but the first comes directly
    after exactly one erase sequence. *)
Theorem loop_status_log
    (trace : list Event) (lc : nat) (m0 m1 m2 m3 : Servo) (c : list Output) :
  Forall (fun q => loop_exit q = None) trace ->
  console (snd (run_loop four_handles lc trace (mkWorld [m0; m1; m2; m3] c)))
  = c ++ match trace with
         | [] => []
         | ev :: rest =>
             (read_errors uni_isdigit uni_decimal int_max_str_digits
                (source ev)
              ++ repeat PrintEraseLine lc
              ++ [PrintStatus (word_of ev) (snd (steer_table (word_of ev)))])
             ++ flat_map
                  (fun q =>
                     read_errors uni_isdigit uni_decimal int_max_str_digits
                       (source q)
                     ++ [PrintEraseLine;
                         PrintStatus (word_of q)
                           (snd (steer_table (word_of q)))])
                  rest
         end
  /\ statuses
       (console (snd (run_loop four_handles lc trace
                        (mkWorld [m0; m1; m2; m3] c))))
     = statuses c
       ++ map (fun ev => (word_of ev, snd (steer_table (word_of ev)))) trace
  /\ erasures
       (console (snd (run_loop four_handles lc trace
                        (mkWorld [m0; m1; m2; m3] c))))
     = (erasures c
        + match trace with
          | [] => 0
          | _ :: rest => lc + List.length rest
          end)%nat.
Proof.
  intros Hq. split.
  - unfold run_loop, word_of.
    rewrite (loop_quiet_console uni_isdigit uni_decimal int_max_str_digits
               trace Hq).
    reflexivity.
  - destruct (loop_quiet uni_isdigit uni_decimal int_max_str_digits
                trace Hq (Cycle Missing None) lc m0 m1 m2 m3 c)
      as (c' & Hrun & Hst & Her).
    unfold run_loop. rewrite Hrun. cbn [snd console].
    split; assumption.
Qed.

End LoopProperties.

Lemma loop_servos_follow_last_command_witness :
  map channel_state
    (heap (snd (loop ascii_isdigit ascii_decimal 4300 four_handles 0
                  ([Cycle (Text (pystr_of_string "6")) None;
                    Cycle (Text (pystr_of_string "")) None]
                   ++ [Cycle (Text (pystr_of_string "7")) None])
                  (mkWorld [fresh_servo 27; fresh_servo 17;
                            fresh_servo 22; fresh_servo 23] []))))
  = [Detached; Active (- 0.25)%float; Active 0.75%float; Detached].
Proof.
  apply (loop_servos_follow_last_command ascii_isdigit ascii_decimal 4300
           [Cycle (Text (pystr_of_string "6")) None;
            Cycle (Text (pystr_of_string "")) None]
           (Cycle (Text (pystr_of_string "7")) None)).
  - repeat constructor.
  - reflexivity.
Defined.

Lemma loop_status_log_witness :
  console (snd (loop ascii_isdigit ascii_decimal 4300 four_handles 0
                  [Cycle (Text (pystr_of_string "2")) None;
                   Cycle Missing None;
                   Cycle (Text (pystr_of_string "8")) None]
                  (mkWorld [fresh_servo 27; fresh_servo 17;
                            fresh_servo 22; fresh_servo 23] [])))
  = [PrintStatus 2 "BACKWART";
     StderrFileNotFound; PrintEraseLine; PrintStatus 0 "STOP (Detached)";
     PrintEraseLine; PrintStatus 8 "DIAGONAL-RIGHT"].
Proof.
  apply (loop_status_log ascii_isdigit ascii_decimal 4300
           [Cycle (Text (pystr_of_string "2")) None;
            Cycle Missing None;
            Cycle (Text (pystr_of_string "8")) None]).
  repeat constructor.
Defined.

(* ================================================================== *)
(** ** Further properties of the read step *)

Lemma lstrip_spaces_app (ws t : pystr) :
  Forall (fun c => isspace c = true) ws -> lstrip (ws ++ t) = lstrip t.
Proof.
  induction 1 as [ | c ws Hc _ IH]; [reflexivity | ].
  cbn [app lstrip]. rewrite Hc. exact IH.
Qed.

Lemma lstrip_all_spaces (ws : pystr) :
  Forall (fun c => isspace c = true) ws -> lstrip ws = [].
Proof.
  intros H. rewrite <- (app_nil_r ws). rewrite lstrip_spaces_app by exact H.
  reflexivity.
Qed.

Lemma lstrip_nil_spaces (s : pystr) :
  lstrip s = [] -> Forall (fun c => isspace c = true) s.
Proof.
  induction s as [ | c s IH]; [constructor | ].
  cbn [lstrip]. destruct (isspace c) eqn:Hc; [ | discriminate].
  intros H. constructor; [exact Hc | exact (IH H)].
Qed.

Lemma lstrip_app_kept (s t : pystr) :
  lstrip s <> [] -> lstrip (s ++ t) = lstrip s ++ t.
Proof.
  induction s as [ | c s IH]; [intros H; contradiction H; reflexivity | ].
  cbn [app lstrip]. destruct (isspace c); [exact IH | reflexivity].
Qed.

Lemma rstrip_spaces_app (t ws : pystr) :
  Forall (fun c => isspace c = true) ws -> rstrip (t ++ ws) = rstrip t.
Proof.
  intros H. unfold rstrip. rewrite rev_app_distr.
  rewrite lstrip_spaces_app by (apply Forall_rev; exact H). reflexivity.
Qed.

Lemma strip_surrounding_spaces (ws s ws' : pystr) :
  Forall (fun c => isspace c = true) ws ->
  Forall (fun c => isspace c = true) ws' ->
  strip (ws ++ s ++ ws') = strip s.
Proof.
  intros Hws Hws'. unfold strip. rewrite lstrip_spaces_app by exact Hws.
  destruct (lstrip s) as [ | c r] eqn:Hs.
  - rewrite lstrip_all_spaces; [reflexivity | ].
    apply Forall_app. split; [apply lstrip_nil_spaces; exact Hs | exact Hws'].
  - rewrite lstrip_app_kept by (rewrite Hs; discriminate).
    rewrite Hs. apply rstrip_spaces_app. exact Hws'.
Qed.

Lemma strip_no_spaces (s : pystr) :
  Forall (fun c => isspace c = false) s -> strip s = s.
Proof.
  intros H. unfold strip, rstrip.
  assert (Hl : forall t, Forall (fun c => isspace c = false) t -> lstrip t = t).
  { intros t Ht. destruct Ht as [ | c t Hc _]; [reflexivity | ].
    cbn [lstrip]. rewrite Hc. reflexivity. }
  rewrite (Hl s H). rewrite (Hl (rev s)) by (apply Forall_rev; exact H).
  apply rev_involutive.
Qed.

Lemma decimal_digits_ascii (fuel : nat) :
  forall n : N,
    Forall (fun c => (48 <=? c)%N && (c <=? 57)%N = true)
      (decimal_digits fuel n).
Proof.
  induction fuel as [ | fuel IH]; intros n; cbn [decimal_digits].
  - constructor.
  - destruct (N.ltb_spec n 10).
    + constructor; [ | constructor].
      apply andb_true_intro. split; apply N.leb_le; lia.
    + apply Forall_app. split; [apply IH | ].
      constructor; [ | constructor].
      pose proof (N.mod_lt n 10 ltac:(lia)) as Hr.
      generalize dependent (n mod 10)%N. intros r Hr.
      apply andb_true_intro. split; apply N.leb_le; lia.
Qed.

Lemma log2_div_10 (n : N) : (10 <= n)%N -> (N.log2 (n / 10) < N.log2 n)%N.
Proof.
  intros Hn.
  assert (Hq : (0 < n / 10)%N) by (apply N.div_str_pos; lia).
  assert (H2 : (2 * (n / 10) <= n)%N).
  { pose proof (N.Div0.mul_div_le n 10). lia. }
  apply N.log2_le_mono in H2. rewrite N.log2_double in H2 by exact Hq. lia.
Qed.

Section ReadProperties.

Variable uni_isdigit : N -> bool.
Variable uni_decimal : N -> option N.
Variable int_max_str_digits : nat.

Let read_word := read_control_word uni_isdigit uni_decimal int_max_str_digits.

Lemma int_digits_snoc (s : pystr) (c : N) :
  forall acc : Z,
    int_digits uni_decimal acc (s ++ [c])
    = match int_digits uni_decimal acc s, decimal_of_char uni_decimal c with
      | Some v, Some d => Some (10 * v + Z.of_N d)%Z
      | _, _ => None
      end.
Proof.
  induction s as [ | a s IH]; intros acc; cbn [app int_digits].
  - destruct (decimal_of_char uni_decimal c); reflexivity.
  - destruct (decimal_of_char uni_decimal a); [apply IH | reflexivity].
Qed.

Lemma decimal_of_ascii_digit (d : N) :
  (d < 10)%N -> decimal_of_char uni_decimal (48 + d) = Some d.
Proof.
  intros Hd. unfold decimal_of_char.
  replace (48 + d <? 128)%N with true by (symmetry; apply N.ltb_lt; lia).
  replace ((48 <=? 48 + d)%N && (48 + d <=? 57)%N) with true
    by (symmetry; apply andb_true_intro; split; apply N.leb_le; lia).
  f_equal. lia.
Qed.

Lemma int_digits_decimal_digits (fuel : nat) :
  forall n : N,
    (N.to_nat (N.log2 n) < fuel)%nat ->
    int_digits uni_decimal 0 (decimal_digits fuel n) = Some (Z.of_N n)
    /\ decimal_digits fuel n <> [].
Proof.
  induction fuel as [ | fuel IH]; intros n Hf; [lia | ].
  cbn [decimal_digits]. destruct (N.ltb_spec n 10) as [Hlt | Hge].
  - split; [ | discriminate]. cbn [int_digits].
    rewrite decimal_of_ascii_digit by exact Hlt. f_equal.
  - pose proof (log2_div_10 n Hge) as Hlog.
    destruct (IH (n / 10)%N) as [Hq Hne]; [lia | ].
    split; [ | intros Habs; apply app_eq_nil in Habs;
               destruct Habs as [_ Habs]; discriminate].
    rewrite int_digits_snoc, Hq.
    rewrite decimal_of_ascii_digit by (apply N.mod_lt; lia).
    f_equal. pose proof (N.Div0.div_mod n 10) as Hdm.
    generalize dependent (n mod 10)%N. generalize dependent (n / 10)%N.
    intros. lia.
Qed.

(** X7: white space around the text of the control file does not matter:
    the read step gives the same outcome and the same terminal output
    whether or not the text is wrapped in white-space characters (a
    trailing newline, indentation). *)
Theorem read_ignores_surrounding_spaces
    (ws s ws' : pystr) (w : World) :
  Forall (fun c => isspace c = true) ws ->
  Forall (fun c => isspace c = true) ws' ->
  read_word (Text (ws ++ s ++ ws')) w = read_word (Text s) w.
Proof.
  intros Hws Hws'. unfold read_word, read_control_word.
  rewrite (strip_surrounding_spaces ws s ws' Hws Hws'). reflexivity.
Qed.

(** X8: the read step inverts decimal notation: when the file holds the
    decimal numeral of a natural number [n], and the numeral is within the
    digit limit of [int()], the control word read is [n], and nothing is
    written to the terminal. *)
Theorem read_decimal_round_trip (n : N) (w : World) :
  int_max_str_digits = O
  \/ (List.length (decimal n) <= int_max_str_digits)%nat ->
  read_word (Text (decimal n)) w = (Return (Z.of_N n), w).
Proof.
  intros Hlimit.
  destruct (int_digits_decimal_digits (S (N.to_nat (N.log2 n))) n)
    as [Hval Hne]; [lia | ].
  fold (decimal n) in Hval, Hne.
  pose proof (decimal_digits_ascii (S (N.to_nat (N.log2 n))) n) as Hascii.
  fold (decimal n) in Hascii.
  assert (Hstrip : strip (decimal n) = decimal n).
  { apply strip_no_spaces.
    eapply Forall_impl; [ | exact Hascii].
    intros c Hc. apply andb_prop in Hc. destruct Hc as [H1 H2].
    apply N.leb_le in H1, H2. unfold isspace.
    repeat match goal with
           | |- context [(?a <=? ?b)%N] =>
               destruct (N.leb_spec a b); try lia
           | |- context [(?a =? ?b)%N] =>
               destruct (N.eqb_spec a b); try lia
           end; reflexivity. }
  assert (Hisdigit : isdigit uni_isdigit (decimal n) = true).
  { unfold isdigit. destruct (decimal n) as [ | c0 r] eqn:Hd;
      [contradiction Hne; reflexivity | ].
    apply forallb_forall. intros c Hin.
    rewrite Forall_forall in Hascii. specialize (Hascii c Hin).
    unfold isdigit_char.
    apply andb_prop in Hascii as Hb. destruct Hb as [_ H2].
    apply N.leb_le in H2.
    replace (c <? 128)%N with true by (symmetry; apply N.ltb_lt; lia).
    exact Hascii. }
  assert (Hint : int uni_decimal int_max_str_digits (decimal n)
                 = Return (Z.of_N n)).
  { unfold int. destruct (decimal n) as [ | c0 r] eqn:Hd;
      [contradiction Hne; reflexivity | ].
    replace (negb (int_max_str_digits =? 0)%nat
             && (int_max_str_digits <? List.length (c0 :: r))%nat)
      with false.
    - rewrite Hval. reflexivity.
    - symmetry. apply andb_false_iff. destruct Hlimit as [-> | Hle].
      + left. reflexivity.
      + right. apply Nat.ltb_ge. exact Hle. }
  unfold read_word, read_control_word, try_except, lift.
  rewrite Hstrip, Hisdigit, Hint. reflexivity.
Qed.

(** X9: the read step touches no servo, prints no status line and no erase
    sequence, writes at most one line to the terminal, and always returns a
    control word unless the file access itself raised something that is not
    an [Exception], which it passes on. *)
Theorem read_control_word_frame (src : Source) (w : World) :
  heap (snd (read_word src w)) = heap w
  /\ (exists added : list Output,
        console (snd (read_word src w)) = console w ++ added
        /\ (List.length added <= 1)%nat
        /\ statuses added = []
        /\ erasures added = O)
  /\ fst (read_word src w) <> Running
  /\ (forall e : exn,
        fst (read_word src w) = Raise e ->
        src = Unreadable e /\ is_Exception e = false).
Proof.
  unfold read_word. rewrite read_control_word_eq. cbn [fst snd heap console].
  split; [reflexivity | ].
  split.
  - exists (read_errors uni_isdigit uni_decimal int_max_str_digits src).
    split; [reflexivity | ].
    split; [ | split; [apply statuses_read_errors
                      | apply erasures_read_errors]].
    unfold read_errors, read_control_word, try_except.
    destruct src as [ | e | raw].
    + cbn. lia.
    + unfold raise. destruct (is_Exception e); cbn; lia.
    + destruct (isdigit uni_isdigit (strip raw)); [ | cbn; lia].
      unfold lift.
      destruct (int_cases uni_decimal int_max_str_digits (strip raw))
        as [[n [Hn _]] | Hn]; rewrite Hn; cbn; lia.
  - pose proof (read_result_cases uni_isdigit uni_decimal
                  int_max_str_digits src) as Hc.
    destruct src as [ | e0 | raw].
    + rewrite Hc. split; [discriminate | intros e H; discriminate].
    + rewrite Hc. destruct (is_Exception e0) eqn:He.
      * split; [discriminate | intros e H; discriminate].
      * split; [discriminate | ]. intros e H. injection H as <-.
        split; [reflexivity | exact He].
    + rewrite Hc. split; [discriminate | intros e H; discriminate].
Qed.

End ReadProperties.

Lemma read_ignores_surrounding_spaces_witness :
  read_control_word ascii_isdigit ascii_decimal 4300
    (Text ([32; 9] ++ [53] ++ [13; 10])%N) initial_world
  = read_control_word ascii_isdigit ascii_decimal 4300
      (Text [53]%N) initial_world.
Proof.
  apply (read_ignores_surrounding_spaces ascii_isdigit ascii_decimal 4300
           [32; 9]%N [53]%N [13; 10]%N initial_world);
    repeat constructor.
Defined.

Lemma read_decimal_round_trip_witness :
  read_control_word ascii_isdigit ascii_decimal 4300
    (Text (decimal 120)) initial_world
  = (Return 120%Z, initial_world).
Proof.
  apply (read_decimal_round_trip ascii_isdigit ascii_decimal 4300 120
           initial_world).
  right. vm_compute. lia.
Defined.

(* ================================================================== *)
(** ** Further properties of initialisation, [main] and the cleanup *)

Lemma prints_app (a b : list Output) :
  prints (a ++ b) = prints a ++ prints b.
Proof.
  induction a as [ | o a IH]; [reflexivity | ].
  destruct o; cbn; rewrite IH; reflexivity.
Qed.

Lemma prints_erase (n : nat) : prints (repeat PrintEraseLine n) = [].
Proof. induction n; [reflexivity | exact IHn]. Qed.

Section MainProperties.

Variable uni_isdigit : N -> bool.
Variable uni_decimal : N -> option N.
Variable int_max_str_digits : nat.
Variable release : Z -> option exn.
Variable interrupt : Z -> option exn.
Variable farewell : option exn.

Let run_loop := loop uni_isdigit uni_decimal int_max_str_digits.
Let run_main :=
  main uni_isdigit uni_decimal int_max_str_digits release interrupt farewell
    four_handles.
Let fault := shutdown_fault release interrupt.

Lemma prints_read_errors (src : Source) :
  prints (read_errors uni_isdigit uni_decimal int_max_str_digits src) = [].
Proof.
  unfold read_errors, read_control_word, try_except.
  destruct src as [ | e | raw].
  - reflexivity.
  - unfold raise. destruct (is_Exception e); reflexivity.
  - destruct (isdigit uni_isdigit (strip raw)); [ | reflexivity].
    unfold lift.
    destruct (int_cases uni_decimal int_max_str_digits (strip raw))
      as [[n [Hn _]] | Hn]; rewrite Hn; reflexivity.
Qed.

(** The loop writes status lines, erase sequences and error lines only. *)
Lemma loop_prints (trace : list Event) :
  forall (lc : nat) (m0 m1 m2 m3 : Servo) (c : list Output),
    prints (console (snd (run_loop four_handles lc trace
                            (mkWorld [m0; m1; m2; m3] c))))
    = prints c.
Proof.
  induction trace as [ | ev rest IH]; intros; [reflexivity | ].
  unfold run_loop. rewrite loop_cons_four.
  destruct (read_result _ _ _ (source ev)) as [cw | e | ].
  - destruct (drive_four (fst (steer_table cw)) m0 m1 m2 m3)
      as (n0 & n1 & n2 & n3 & Hd & _).
    cbv zeta. rewrite Hd. destruct (wake ev) as [e | ].
    + cbn [snd console]. rewrite !prints_app.
      rewrite prints_read_errors, prints_erase. cbn. apply app_nil_r.
    + unfold run_loop in IH. rewrite IH. rewrite !prints_app.
      rewrite prints_read_errors, prints_erase. cbn. apply app_nil_r.
  - cbn [snd console]. rewrite prints_app, prints_read_errors.
    apply app_nil_r.
  - cbn [snd console]. rewrite prints_app, prints_read_errors.
    apply app_nil_r.
Qed.

Lemma shutdown_fault_none (p : Z) :
  fault p = None -> interrupt p = None /\ release p = None.
Proof.
  unfold fault, shutdown_fault.
  destruct (interrupt p);
    [discriminate | intros H; split; [reflexivity | exact H]].
Qed.

Ltac cleanup_step :=
  cbn [update_at heap console nth_error pin set_value mark_closed].

Ltac cleanup_pass n H :=
  let Hi := fresh "Hi" in
  let Hr := fresh "Hr" in
  destruct (shutdown_fault_none (pin n) (H (pin n) ltac:(tauto))) as [Hi Hr];
  rewrite Hi; cleanup_step; rewrite Hr; cleanup_step.

Ltac cleanup_fail n He :=
  unfold fault, shutdown_fault in He;
  destruct (interrupt (pin n)) as [? | ];
  [ injection He as <- | cleanup_step; rewrite He ];
  cleanup_step; eexists; split; reflexivity.

(** The cleanup loop when its first exception comes up at the servo at
    position [k], the hardware being told by pins. *)
Lemma cleanup_first_failure (n0 n1 n2 n3 : Servo) (c : list Output)
    (k : nat) (p : Z) (e : exn) :
  nth_error (map pin [n0; n1; n2; n3]) k = Some p ->
  fault p = Some e ->
  (forall q, In q (firstn k (map pin [n0; n1; n2; n3])) -> fault q = None) ->
  exists h : list Servo,
    cleanup_loop release interrupt four_handles (mkWorld [n0; n1; n2; n3] c)
    = (Raise e, mkWorld h c)
    /\ map pin h = map pin [n0; n1; n2; n3].
Proof.
  intros Hk He Hbefore.
  destruct k as [ | [ | [ | [ | k]]]]; cbn in Hk;
    [injection Hk as <- .. | destruct k; discriminate];
    cbn [firstn map In] in Hbefore;
    unfold four_handles; cbn [cleanup_loop];
    unfold close, deref, signal, assign_value, modify, ret, raise, bind;
    cleanup_step.
  - cleanup_fail n0 He.
  - cleanup_pass n0 Hbefore. cleanup_fail n1 He.
  - cleanup_pass n0 Hbefore. cleanup_pass n1 Hbefore. cleanup_fail n2 He.
  - cleanup_pass n0 Hbefore. cleanup_pass n1 Hbefore.
    cleanup_pass n2 Hbefore. cleanup_fail n3 He.
Qed.

Lemma loop_raised_world (trace : list Event) (e : exn)
    (m0 m1 m2 m3 : Servo) (c : list Output) :
  fst (run_loop four_handles 0%nat trace (mkWorld [m0; m1; m2; m3] c))
  = Raise e ->
  exists (n0 n1 n2 n3 : Servo) (c1 : list Output),
    run_loop four_handles 0%nat trace (mkWorld [m0; m1; m2; m3] c)
    = (Raise e, mkWorld [n0; n1; n2; n3] c1)
    /\ map pin [n0; n1; n2; n3] = map pin [m0; m1; m2; m3]
    /\ prints c1 = prints c.
Proof.
  intros He.
  destruct (loop_four_servos uni_isdigit uni_decimal int_max_str_digits
              trace 0%nat m0 m1 m2 m3 c)
    as (n0 & n1 & n2 & n3 & c1 & Hs & Hp).
  pose proof (loop_prints trace 0%nat m0 m1 m2 m3 c) as Hpr.
  fold run_loop in Hs.
  exists n0, n1, n2, n3, c1.
  rewrite Hs in Hpr. cbn [console] in Hpr.
  split; [ | split; assumption].
  rewrite (surjective_pairing (run_loop _ _ _ _)). rewrite He, Hs. reflexivity.
Qed.

Lemma main_raised_exact (trace : list Event) (h : list Servo)
    (c : list Output) (e : exn) (n0 n1 n2 n3 : Servo) (c1 : list Output) :
  run_loop four_handles 0%nat trace (mkWorld h (c ++ banner))
  = (Raise e, mkWorld [n0; n1; n2; n3] c1) ->
  (forall n, In n [n0; n1; n2; n3] -> interrupt (pin n) = None) ->
  (forall n, In n [n0; n1; n2; n3] -> release (pin n) = None) ->
  farewell = None ->
  run_main trace (mkWorld h c)
  = (if is_KeyboardInterrupt e then Return tt else Raise e,
     mkWorld (map detach_and_close [n0; n1; n2; n3])
       (c1
        ++ (if is_KeyboardInterrupt e then [Print interrupted_line] else [])
        ++ [Print "[INFO] Cleanup complete. Script finished."])).
Proof.
  intros Hl Hint Hok Hfw. unfold run_main. rewrite main_unfold.
  unfold try_finally, try_except. fold run_loop. rewrite Hl, Hfw.
  destruct (is_KeyboardInterrupt e).
  - unfold print at 1. cbn [heap console].
    unfold bind. rewrite (cleanup_four_ok release interrupt _ _ _ _ _ Hint Hok).
    unfold signal, ret, print. cbn [heap console].
    rewrite <- app_assoc. reflexivity.
  - unfold bind. rewrite (cleanup_four_ok release interrupt _ _ _ _ _ Hint Hok).
    unfold signal, ret, print. cbn [heap console]. reflexivity.
Qed.

(** X10: the first exception raised in the cleanup loop, by a [close()]
    or by a Ctrl-C arriving at line 151, takes over the way [main] ends:
    whatever made the loop stop, Ctrl-C included, [main] ends with that
    exception, and the line "Cleanup complete" is not printed; the plain
    lines on the terminal are the banner and, after Ctrl-C, the
    "Interrupted" line (which starts with a newline) only. *)
Theorem main_cleanup_failure_replaces_exit
    (quiet : list Event) (ev : Event) (rest : list Event) (e : exn)
    (m0 m1 m2 m3 : Servo) (c : list Output)
    (k : nat) (p : Z) (e' : exn) :
  Forall (fun q => loop_exit q = None) quiet ->
  loop_exit ev = Some e ->
  nth_error (map pin [m0; m1; m2; m3]) k = Some p ->
  fault p = Some e' ->
  (forall q, In q (firstn k (map pin [m0; m1; m2; m3])) -> fault q = None) ->
  fst (run_main (quiet ++ ev :: rest) (mkWorld [m0; m1; m2; m3] c)) = Raise e'
  /\ prints (console (snd (run_main (quiet ++ ev :: rest)
                             (mkWorld [m0; m1; m2; m3] c))))
     = prints c ++ prints banner
       ++ (if is_KeyboardInterrupt e then [interrupted_line] else []).
Proof.
  intros Hq Hev Hk He' Hbefore.
  pose proof (loop_exits uni_isdigit uni_decimal int_max_str_digits
                quiet ev rest e Hq Hev 0%nat m0 m1 m2 m3 (c ++ banner))
    as Hexit.
  destruct (loop_raised_world _ e m0 m1 m2 m3 (c ++ banner) Hexit)
    as (n0 & n1 & n2 & n3 & c1 & Hl & Hp & Hpr).
  rewrite <- Hp in Hk, Hbefore.
  rewrite prints_app in Hpr.
  destruct (is_KeyboardInterrupt e) eqn:HKI.
  - destruct (cleanup_first_failure n0 n1 n2 n3
                (c1 ++ [Print interrupted_line])
                k p e' Hk He' Hbefore) as (h & Hc & _).
    assert (Hmain : run_main (quiet ++ ev :: rest) (mkWorld [m0; m1; m2; m3] c)
                    = (Raise e',
                       mkWorld h (c1 ++ [Print interrupted_line]))).
    { unfold run_main. rewrite main_unfold.
      unfold try_finally, try_except. fold run_loop. rewrite Hl, HKI.
      unfold print at 1. cbn [heap console].
      unfold bind. rewrite Hc. reflexivity. }
    rewrite Hmain. cbn [fst snd console].
    split; [reflexivity | ].
    rewrite prints_app, Hpr. cbn [prints]. rewrite <- app_assoc. reflexivity.
  - destruct (cleanup_first_failure n0 n1 n2 n3 c1 k p e' Hk He' Hbefore)
      as (h & Hc & _).
    assert (Hmain : run_main (quiet ++ ev :: rest) (mkWorld [m0; m1; m2; m3] c)
                    = (Raise e', mkWorld h c1)).
    { unfold run_main. rewrite main_unfold.
      unfold try_finally, try_except. fold run_loop. rewrite Hl, HKI.
      unfold bind. rewrite Hc. reflexivity. }
    rewrite Hmain. cbn [fst snd console].
    split; [reflexivity | ]. rewrite Hpr, app_nil_r. reflexivity.
Qed.

End MainProperties.

Lemma main_cleanup_failure_replaces_exit_witness :
  fst (main ascii_isdigit ascii_decimal 4300
         (fault_on 22 (Exception "OSError")) no_fault None four_handles
         ([Cycle (Text (pystr_of_string "5")) None]
          ++ Cycle Missing (Some KeyboardInterrupt) :: [])
         (mkWorld [fresh_servo 27; fresh_servo 17;
                   fresh_servo 22; fresh_servo 23] []))
  = Raise (Exception "OSError")
  /\ prints
       (console
          (snd (main ascii_isdigit ascii_decimal 4300
                  (fault_on 22 (Exception "OSError")) no_fault None
                  four_handles
                  ([Cycle (Text (pystr_of_string "5")) None]
                   ++ Cycle Missing (Some KeyboardInterrupt) :: [])
                  (mkWorld [fresh_servo 27; fresh_servo 17;
                            fresh_servo 22; fresh_servo 23] []))))
     = prints banner ++ [interrupted_line].
Proof.
  apply (main_cleanup_failure_replaces_exit ascii_isdigit ascii_decimal 4300
           (fault_on 22 (Exception "OSError")) no_fault None
           [Cycle (Text (pystr_of_string "5")) None]
           (Cycle Missing (Some KeyboardInterrupt)) [] KeyboardInterrupt
           (fresh_servo 27) (fresh_servo 17) (fresh_servo 22) (fresh_servo 23)
           [] 2%nat 22%Z (Exception "OSError")).
  - repeat constructor.
  - reflexivity.
  - reflexivity.
  - reflexivity.
  - intros q [<- | [<- | []]]; reflexivity.
Defined.

Section ProgramProperties.

Variable uni_isdigit : N -> bool.
Variable uni_decimal : N -> option N.
Variable int_max_str_digits : nat.
Variable acquire : Z -> option exn.
Variable release : Z -> option exn.
Variable interrupt : Z -> option exn.
Variable farewell : option exn.

Let run_program :=
  program uni_isdigit uni_decimal int_max_str_digits acquire release
    interrupt farewell.

(** X11: the module-level initialisation returns if and only if every one
    of the four pins is acquired; [all_motors] is then the four servos in
    the order front-left, front-right, rear-left, rear-right, on pins 27,
    17, 22 and 23, each Detached and open, and nothing has been printed. *)
Theorem init_all_motors_returns_iff :
  ((forall q, In q motor_pins -> acquire q = None) ->
   init_all_motors acquire initial_world
   = (Return four_handles,
      mkWorld [mkServo 27 None false; mkServo 17 None false;
               mkServo 22 None false; mkServo 23 None false] []))
  /\ (forall (all_motors : list nat) (w : World),
        init_all_motors acquire initial_world = (Return all_motors, w) ->
        forall q, In q motor_pins -> acquire q = None).
Proof.
  split; [exact (init_all_motors_ok acquire) | ].
  intros am w H.
  unfold initial_world, init_all_motors, init_motor, Servo_new, sys_exit,
    try_except, new_servo, raise, print, ret, bind in H.
  cbn [heap console List.length app] in H.
  destruct (acquire FRONT_LEFT_PIN) as [e | ] eqn:H0;
    [destruct (is_Exception e); discriminate H | ].
  cbn [heap console List.length app] in H.
  destruct (acquire FRONT_RIGHT_PIN) as [e | ] eqn:H1;
    [destruct (is_Exception e); discriminate H | ].
  cbn [heap console List.length app] in H.
  destruct (acquire REAR_LEFT_PIN) as [e | ] eqn:H2;
    [destruct (is_Exception e); discriminate H | ].
  cbn [heap console List.length app] in H.
  destruct (acquire REAR_RIGHT_PIN) as [e | ] eqn:H3;
    [destruct (is_Exception e); discriminate H | ].
  intros q [<- | [<- | [<- | [<- | []]]]]; assumption.
Qed.

(** X12: a run on sound hardware that is stopped: when all four pins are
    acquired, no [close()] raises and no further exception arrives while
    the final block runs, and an event makes the loop stop, the program
    ends normally after Ctrl-C and with the exception otherwise; the four
    servos are then on their pins, Detached and closed, and the plain lines
    on the terminal are the banner, the "Interrupted" line (which starts
    with a newline) after Ctrl-C, and "Cleanup complete" last. *)
Theorem program_stops_cleanly
    (quiet : list Event) (ev : Event) (rest : list Event) (e : exn) :
  (forall q, In q motor_pins -> acquire q = None) ->
  (forall q, In q motor_pins -> release q = None) ->
  (forall q, In q motor_pins -> interrupt q = None) ->
  farewell = None ->
  Forall (fun q => loop_exit q = None) quiet ->
  loop_exit ev = Some e ->
  fst (run_program (quiet ++ ev :: rest) initial_world)
  = (if is_KeyboardInterrupt e then Return tt else Raise e)
  /\ heap (snd (run_program (quiet ++ ev :: rest) initial_world))
     = map closed_servo motor_pins
  /\ prints (console (snd (run_program (quiet ++ ev :: rest) initial_world)))
     = prints banner
       ++ (if is_KeyboardInterrupt e then [interrupted_line] else [])
       ++ ["[INFO] Cleanup complete. Script finished."].
Proof.
  intros Hacq Hrel Hint Hfw Hq Hev.
  pose proof (loop_exits uni_isdigit uni_decimal int_max_str_digits
                quiet ev rest e Hq Hev 0%nat
                (fresh_servo FRONT_LEFT_PIN) (fresh_servo FRONT_RIGHT_PIN)
                (fresh_servo REAR_LEFT_PIN) (fresh_servo REAR_RIGHT_PIN)
                ([] ++ banner)) as Hexit.
  destruct (loop_raised_world uni_isdigit uni_decimal int_max_str_digits
              _ e _ _ _ _ _ Hexit)
    as (n0 & n1 & n2 & n3 & c1 & Hl & Hp & Hpr).
  assert (Hok : forall n, In n [n0; n1; n2; n3] -> release (pin n) = None).
  { intros n Hn. apply Hrel. apply (in_map pin) in Hn.
    rewrite Hp in Hn. exact Hn. }
  assert (Hquiet : forall n, In n [n0; n1; n2; n3] -> interrupt (pin n) = None).
  { intros n Hn. apply Hint. apply (in_map pin) in Hn.
    rewrite Hp in Hn. exact Hn. }
  assert (Hrun : run_program (quiet ++ ev :: rest) initial_world
                 = (if is_KeyboardInterrupt e then Return tt else Raise e,
                    mkWorld (map detach_and_close [n0; n1; n2; n3])
                      (c1
                       ++ (if is_KeyboardInterrupt e
                           then [Print interrupted_line]
                           else [])
                       ++ [Print "[INFO] Cleanup complete. Script finished."]))).
  { unfold run_program, program. unfold bind at 1.
    rewrite (init_all_motors_ok acquire Hacq).
    apply (main_raised_exact uni_isdigit uni_decimal int_max_str_digits
             release interrupt farewell _ _ [] e n0 n1 n2 n3 c1
             Hl Hquiet Hok Hfw). }
  rewrite Hrun. cbn [fst snd heap console].
  split; [reflexivity | ]. split.
  - unfold motor_pins. cbn [map pin fresh_servo] in Hp |- *.
    injection Hp as H0 H1 H2 H3.
    rewrite <- H0, <- H1, <- H2, <- H3. reflexivity.
  - rewrite !prints_app, Hpr. cbn [app].
    destruct (is_KeyboardInterrupt e); reflexivity.
Qed.

End ProgramProperties.

Lemma program_stops_cleanly_witness :
  fst (program ascii_isdigit ascii_decimal 4300 no_fault no_fault no_fault
         None
         ([Cycle (Text (pystr_of_string "3")) None]
          ++ Cycle (Text (pystr_of_string "1")) (Some KeyboardInterrupt) :: [])
         initial_world)
  = Return tt
  /\ heap (snd (program ascii_isdigit ascii_decimal 4300 no_fault no_fault
                  no_fault None
                  ([Cycle (Text (pystr_of_string "3")) None]
                   ++ Cycle (Text (pystr_of_string "1"))
                        (Some KeyboardInterrupt) :: [])
                  initial_world))
     = [closed_servo 27; closed_servo 17; closed_servo 22; closed_servo 23]
  /\ prints
       (console
          (snd (program ascii_isdigit ascii_decimal 4300 no_fault no_fault
                  no_fault None
                  ([Cycle (Text (pystr_of_string "3")) None]
                   ++ Cycle (Text (pystr_of_string "1"))
                        (Some KeyboardInterrupt) :: [])
                  initial_world)))
     = prints banner
       ++ [interrupted_line]
       ++ ["[INFO] Cleanup complete. Script finished."].
Proof.
  apply (program_stops_cleanly ascii_isdigit ascii_decimal 4300
           no_fault no_fault no_fault None
           [Cycle (Text (pystr_of_string "3")) None]
           (Cycle (Text (pystr_of_string "1")) (Some KeyboardInterrupt))
           [] KeyboardInterrupt).
  - intros q _. reflexivity.
  - intros q _. reflexivity.
  - intros q _. reflexivity.
  - reflexivity.
  - repeat constructor.
  - reflexivity.
Defined.

Lemma init_all_motors_returns_iff_witness :
  init_all_motors no_fault initial_world
  = (Return four_handles,
     mkWorld [mkServo 27 None false; mkServo 17 None false;
              mkServo 22 None false; mkServo 23 None false] []).
Proof.
  apply (proj1 (init_all_motors_returns_iff no_fault)).
  intros q _. reflexivity.
Defined.

Section ReadReports.

Variable uni_isdigit : N -> bool.
Variable uni_decimal : N -> option N.
Variable int_max_str_digits : nat.

Let read_word := read_control_word uni_isdigit uni_decimal int_max_str_digits.

(** X13: what the read step reports when it falls back to code 0: a
    missing file gives the "file not found" line on stderr; an [Exception]
    out of the file access gives an error line naming it; a text that is
    all digits but that [int()] refuses gives an error line for the
    [ValueError]; a text that is not all digits gives code 0 with no line
    at all. *)
Theorem read_fallback_reports (w : World) :
  read_word Missing w
  = (Return 0%Z, mkWorld (heap w) (console w ++ [StderrFileNotFound]))
  /\ (forall e : exn,
        is_Exception e = true ->
        read_word (Unreadable e) w
        = (Return 0%Z, mkWorld (heap w) (console w ++ [StderrReadError e])))
  /\ (forall raw : pystr,
        isdigit uni_isdigit (strip raw) = true ->
        (forall n, int uni_decimal int_max_str_digits (strip raw) <> Return n) ->
        read_word (Text raw) w
        = (Return 0%Z,
           mkWorld (heap w)
             (console w ++ [StderrReadError (Exception "ValueError")])))
  /\ (forall raw : pystr,
        isdigit uni_isdigit (strip raw) = false ->
        read_word (Text raw) w = (Return 0%Z, w)).
Proof.
  unfold read_word, read_control_word, try_except.
  split; [reflexivity | ]. split; [ | split].
  - intros e He. unfold raise. rewrite He. reflexivity.
  - intros raw Hd Hint. rewrite Hd. unfold lift.
    destruct (int_cases uni_decimal int_max_str_digits (strip raw))
      as [[n [Hn _]] | Hn].
    + contradiction (Hint n).
    + rewrite Hn. reflexivity.
  - intros raw Hd. rewrite Hd. reflexivity.
Qed.

End ReadReports.

Lemma read_fallback_reports_witness :
  read_control_word ascii_isdigit ascii_decimal 2
    (Text (pystr_of_string "123")) initial_world
  = (Return 0%Z, mkWorld [] [StderrReadError (Exception "ValueError")])
  /\ read_control_word ascii_isdigit ascii_decimal 2
       (Text (pystr_of_string "1.5")) initial_world
     = (Return 0%Z, initial_world)
  /\ read_control_word ascii_isdigit ascii_decimal 2
       (Unreadable (Exception "PermissionError")) initial_world
     = (Return 0%Z,
        mkWorld [] [StderrReadError (Exception "PermissionError")]).
Proof.
  destruct (read_fallback_reports ascii_isdigit ascii_decimal 2 initial_world)
    as (_ & Hexn & Hint & Htext).
  split; [ | split].
  - apply (Hint (pystr_of_string "123")); [reflexivity | ].
    intros n. vm_compute. discriminate.
  - apply (Htext (pystr_of_string "1.5")). reflexivity.
  - apply (Hexn (Exception "PermissionError")). reflexivity.
Defined.
